(** * The OPC UA client connection core (package opcua, client.go)

    A shallow embedding of the parts of [Client] that the reconnection
    supervisor, the session life cycle, the subscription registry and the
    service helpers [Read] and [Call] are made of, with the properties the
    specification states about them.

    Conventions.
    - A Go [uint32] is a [Z] in [0, 2^32); arithmetic that can overflow is
      wrapped with [wrap32].
    - A Go interface value of type [error] is an [option error]; [None] is the
      nil interface.
    - A Go pointer that the code compares with nil is an [option]; pointers
      into caller-owned memory that the code copies from are locations of an
      explicit [heap].
    - The secure channel (package uasc), the transport (package uacp), the
      wire types (package ua) and [Subscription]'s own methods are not part of
      this file's source; what they answer is an explicit argument of the
      function that calls them. *)

From stdpp Require Import gmap strings list fin_maps pretty sorting.
From Stdlib Require Import ZArith Lia.

Open Scope Z_scope.

(** ** Machine integers *)

Definition wrap32 (n : Z) : Z := n mod 2 ^ 32.

Definition bytes := list Byte.byte.

#[global] Instance byte_eq_dec : EqDecision Byte.byte := Byte.byte_eq_dec.

(** ** Package ua: status codes, attribute ids and wire structures *)

Module ua.

(** Modelled from the spec: the status-code constants of package ua, which
    the client only refers to by name; the spec lists the names and fixes
    [StatusOK = 0]. The numeric values are those of OPC UA Part 6, Annex A. *)
Definition StatusCode := Z.
Definition StatusOK : StatusCode := 0.
Definition StatusBad : StatusCode := 0x80000000.
Definition StatusBadUnknownResponse : StatusCode := 0x80090000.
Definition StatusBadServerNotConnected : StatusCode := 0x800D0000.
Definition StatusBadCertificateInvalid : StatusCode := 0x80120000.
Definition StatusBadSecureChannelIDInvalid : StatusCode := 0x80220000.
Definition StatusBadSessionIDInvalid : StatusCode := 0x80250000.
Definition StatusBadSessionClosed : StatusCode := 0x80260000.
Definition StatusBadSubscriptionIDInvalid : StatusCode := 0x80280000.
Definition StatusBadMessageNotAvailable : StatusCode := 0x807B0000.

(** [ua.AttributeIDValue] *)
Definition AttributeIDValue : Z := 13.

Inductive MessageSecurityMode :=
| MessageSecurityModeInvalid
| MessageSecurityModeNone
| MessageSecurityModeSign
| MessageSecurityModeSignAndEncrypt.

Inductive UserTokenType :=
| UserTokenTypeAnonymous
| UserTokenTypeUserName
| UserTokenTypeCertificate
| UserTokenTypeIssuedToken.

Definition SecurityPolicyURINone : string :=
  "http://opcfoundation.org/UA/SecurityPolicy#None".

Inductive NodeID :=
| NumericNodeID (ns : Z) (id : Z)
| StringNodeID (ns : Z) (s : string)
| OpaqueNodeID (ns : Z) (b : bytes).

(** A [ua.Variant] is only carried around by the client. *)
Record Variant_ := { variant_encoding : bytes }.

Record QualifiedName := { NamespaceIndex : Z; Name : string }.

Record SignatureData := { Algorithm : string; Signature : bytes }.

Record UserTokenPolicy := { PolicyID : string; TokenType : UserTokenType }.

Record EndpointDescription := {
  SecurityMode : MessageSecurityMode;
  SecurityPolicyURI : string;
  UserIdentityTokens : list UserTokenPolicy;
  SecurityLevel : Z
}.

Record ApplicationDescription := {
  ApplicationURI : string;
  ApplicationName : string
}.

(** *** Requests *)

Record CreateSessionRequest := {
  ClientDescription : option ApplicationDescription;
  EndpointURL : string;
  SessionName : string;
  ClientNonce : bytes;
  ClientCertificate : bytes;
  (** [float64(cfg.SessionTimeout / time.Millisecond)]: the integer that the
      float holds. *)
  RequestedSessionTimeout : Z
}.

Record CloseSessionRequest := { DeleteSubscriptions : bool }.

Record CallMethodRequest := {
  ObjectID : option NodeID;
  MethodID : option NodeID;
  InputArguments : list Variant_
}.

(** [MethodsToCall []*CallMethodRequest]: the pointers may be nil. *)
Record CallRequest := { MethodsToCall : list (option CallMethodRequest) }.

Record CreateSubscriptionRequest := {
  RequestedPublishingInterval : Z;
  RequestedLifetimeCount : Z;
  RequestedMaxKeepAliveCount : Z;
  MaxNotificationsPerPublish : Z;
  PublishingEnabled : bool;
  Priority : Z
}.

Record TransferSubscriptionsRequest := {
  SubscriptionIDs : list Z;
  SendInitialValues : bool
}.

Record RepublishRequest := {
  SubscriptionID : Z;
  RetransmitSequenceNumber : Z
}.

(** *** Responses. The [ResponseHeader] of a response is kept as its
    [ServiceResult] where the client looks at it. *)

Record CreateSessionResponse := {
  AuthenticationToken : option NodeID;
  ServerNonce : bytes;
  ServerCertificate : bytes;
  ServerEndpoints : list EndpointDescription;
  ServerSignature : SignatureData
}.

Record CloseSessionResponse := { CloseSession_ServiceResult : StatusCode }.

Record CallMethodResult := {
  StatusCode_ : StatusCode;
  InputArgumentResults : list StatusCode;
  OutputArguments : list Variant_
}.

(** [Results []*CallMethodResult] *)
Record CallResponse := { Results : list (option CallMethodResult) }.

Record ReadResponse := { ReadResults : list StatusCode }.

Record CreateSubscriptionResponse := {
  CreateSubscription_ServiceResult : StatusCode;
  CreatedSubscriptionID : Z;
  (** the integral part of the float64 the server sent *)
  RevisedPublishingInterval : Z;
  RevisedLifetimeCount : Z;
  RevisedMaxKeepAliveCount : Z
}.

Record TransferResult := {
  TransferStatusCode : StatusCode;
  AvailableSequenceNumbers : list Z
}.

Record TransferSubscriptionsResponse := { TransferResults : list TransferResult }.

Record RepublishResponse := { Republish_ServiceResult : StatusCode }.

(** *** User identity tokens, the values of the interface held in
    [SessionConfig.UserIdentityToken]. *)
Inductive IdentityToken :=
| AnonymousIdentityToken (policyID : string)
| UserNameIdentityToken (policyID userName : string) (password : bytes)
    (encryptionAlgorithm : string)
| X509IdentityToken (policyID : string) (certificateData : bytes)
| IssuedIdentityToken (policyID : string) (tokenData : bytes)
    (encryptionAlgorithm : string).

End ua.

#[global] Instance MessageSecurityMode_eq_dec : EqDecision ua.MessageSecurityMode.
Proof. solve_decision. Defined.
#[global] Instance UserTokenType_eq_dec : EqDecision ua.UserTokenType.
Proof. solve_decision. Defined.
#[global] Instance NodeID_eq_dec : EqDecision ua.NodeID.
Proof. solve_decision. Defined.

(** ** Errors *)

(** The dynamic types a response body or an assignment target can have; this
    is what [reflect.TypeOf] tells [safeAssign]. *)
Inductive TypeName :=
| T_CreateSessionResponse
| T_ActivateSessionResponse
| T_CloseSessionResponse
| T_ReadResponse
| T_CallResponse
| T_CreateSubscriptionResponse
| T_TransferSubscriptionsResponse
| T_RepublishResponse
| T_ServiceFault.

#[global] Instance TypeName_eq_dec : EqDecision TypeName.
Proof. solve_decision. Defined.

(** [syscall.ECONNREFUSED] (Linux). *)
Definition ECONNREFUSED : Z := 0x6f.

(** The error values the client tells apart. [io_EOF] is the variable
    [io.EOF]; [syscall_Errno] a [syscall.Errno]; [uacp_Error] a [*uacp.Error]
    pointing to an error chunk with the given [ErrorCode]; [ua_StatusCode] a
    [ua.StatusCode] used as an error; [errors_Errorf] an error made by
    [errors.Errorf]; [other_error] any error of another dynamic type (a
    [*net.OpError], a context error, ...). *)
Inductive error :=
| io_EOF
| syscall_Errno (errno : Z)
| uacp_Error (ErrorCode : Z)
| ua_StatusCode (code : ua.StatusCode)
| InvalidResponseTypeError (got want : TypeName)
| errors_Errorf (msg : string)
| other_error (descr : string).

#[global] Instance error_eq_dec : EqDecision error.
Proof. solve_decision. Defined.

(** ** Connection state and reconnect actions *)

Inductive ConnState := Closed | Connected | Connecting | Disconnected | Reconnecting.

Inductive reconnectAction :=
| none
| createSecureChannel
| restoreSession
| recreateSession
| republishSubscriptions
| restoreSubscriptions
| abortReconnect.

#[global] Instance ConnState_eq_dec : EqDecision ConnState.
Proof. solve_decision. Defined.
#[global] Instance reconnectAction_eq_dec : EqDecision reconnectAction.
Proof. solve_decision. Defined.

(** ** Response bodies and [safeAssign] *)

(** A decoded response body as the secure channel hands it to a handler (an
    [interface{}] holding a pointer to one of the response structures). *)
Inductive Response :=
| CreateSessionResponse_ (r : ua.CreateSessionResponse)
| CloseSessionResponse_ (r : ua.CloseSessionResponse)
| ReadResponse_ (r : ua.ReadResponse)
| CallResponse_ (r : ua.CallResponse)
| CreateSubscriptionResponse_ (r : ua.CreateSubscriptionResponse)
| TransferSubscriptionsResponse_ (r : ua.TransferSubscriptionsResponse)
| RepublishResponse_ (r : ua.RepublishResponse)
| ServiceFault_ (status : ua.StatusCode).

Definition TypeOf (v : Response) : TypeName :=
  match v with
  | CreateSessionResponse_ _ => T_CreateSessionResponse
  | CloseSessionResponse_ _ => T_CloseSessionResponse
  | ReadResponse_ _ => T_ReadResponse
  | CallResponse_ _ => T_CallResponse
  | CreateSubscriptionResponse_ _ => T_CreateSubscriptionResponse
  | TransferSubscriptionsResponse_ _ => T_TransferSubscriptionsResponse
  | RepublishResponse_ _ => T_RepublishResponse
  | ServiceFault_ _ => T_ServiceFault
  end.

(** How a variable [var res *ua.XResponse] is read out of a response body. *)
Class ResponseType (T : Type) := {
  type_name : TypeName;
  from_response : Response -> option T;
}.

#[global] Instance CreateSessionResponse_type : ResponseType ua.CreateSessionResponse :=
  {| type_name := T_CreateSessionResponse;
     from_response v := match v with CreateSessionResponse_ r => Some r | _ => None end |}.
#[global] Instance CloseSessionResponse_type : ResponseType ua.CloseSessionResponse :=
  {| type_name := T_CloseSessionResponse;
     from_response v := match v with CloseSessionResponse_ r => Some r | _ => None end |}.
#[global] Instance ReadResponse_type : ResponseType ua.ReadResponse :=
  {| type_name := T_ReadResponse;
     from_response v := match v with ReadResponse_ r => Some r | _ => None end |}.
#[global] Instance CallResponse_type : ResponseType ua.CallResponse :=
  {| type_name := T_CallResponse;
     from_response v := match v with CallResponse_ r => Some r | _ => None end |}.
#[global] Instance CreateSubscriptionResponse_type :
  ResponseType ua.CreateSubscriptionResponse :=
  {| type_name := T_CreateSubscriptionResponse;
     from_response v := match v with CreateSubscriptionResponse_ r => Some r | _ => None end |}.
#[global] Instance TransferSubscriptionsResponse_type :
  ResponseType ua.TransferSubscriptionsResponse :=
  {| type_name := T_TransferSubscriptionsResponse;
     from_response v :=
       match v with TransferSubscriptionsResponse_ r => Some r | _ => None end |}.

(** [safeAssign(t, ptrT)]: when the dynamic type of [t] is the element type of
    [ptrT] the target is overwritten with [t]; otherwise the target keeps its
    value and an [InvalidResponseTypeError] is returned. The result is the
    target's new value and the error. *)
Definition safeAssign `{ResponseType T} (t : Response) (ptrT : option T)
  : option T * option error :=
  match from_response t with
  | Some r => (Some r, None)
  | None => (ptrT, Some (InvalidResponseTypeError (TypeOf t) type_name))
  end.

(** ** Configuration (package uasc) *)

Module uasc.

(** [uasc.Config]: the fields the client reads. Durations are nanoseconds. *)
Record Config := {
  AutoReconnect : bool;
  Certificate : bytes;
  RequestTimeout : Z;
  ReconnectInterval : Z
}.

(** [uasc.SessionConfig]. [UserIdentityToken] is an interface: [None] is
    nil. *)
Record SessionConfig := {
  SessionName : string;
  ClientDescription : option ua.ApplicationDescription;
  SessionTimeout : Z;
  UserIdentityToken : option ua.IdentityToken;
  AuthPolicyURI : string;
  LocaleIDs : list string
}.

Definition set_UserIdentityToken (tok : option ua.IdentityToken)
  (sc : SessionConfig) : SessionConfig :=
  {| SessionName := SessionName sc;
     ClientDescription := ClientDescription sc;
     SessionTimeout := SessionTimeout sc;
     UserIdentityToken := tok;
     AuthPolicyURI := AuthPolicyURI sc;
     LocaleIDs := LocaleIDs sc |}.

(** An open secure channel. Its keys and counters belong to package uasc. *)
Record SecureChannel := { ChannelID : Z }.

End uasc.

(** [time.Millisecond], in nanoseconds. *)
Definition Millisecond : Z := 1000000.

(** ** The client, its session and its subscriptions *)

(** The [cfg *uasc.SessionConfig] a session is created with is either the
    client's own [c.sessionCfg] (as in [Connect] and in the supervisor) or
    some other configuration of the caller. *)
Inductive SessionConfigPtr :=
| ptr_sessionCfg
| ptr_other (sc : uasc.SessionConfig).

Record Session := {
  sess_cfg : SessionConfigPtr;
  resp : ua.CreateSessionResponse;
  serverCertificate : bytes;
  serverNonce : bytes
}.

(** [SubscriptionParameters], durations in nanoseconds. *)
Record SubscriptionParameters := {
  Interval : Z;
  LifetimeCount : Z;
  MaxKeepAliveCount : Z;
  MaxNotificationsPerPublish : Z;
  Priority : Z
}.

(** [Subscription]: the fields [Subscribe] fills and [lastSequenceNumber].
    [Notifs] names the caller's notification channel; the four unbuffered
    control channels and the back pointer to the client carry no data. *)
Record Subscription := {
  SubscriptionID : Z;
  RevisedPublishingInterval : Z;
  RevisedLifetimeCount : Z;
  RevisedMaxKeepAliveCount : Z;
  Notifs : Z;
  params : SubscriptionParameters;
  lastSequenceNumber : Z
}.

Definition set_lastSequenceNumber (n : Z) (sub : Subscription) : Subscription :=
  {| SubscriptionID := SubscriptionID sub;
     RevisedPublishingInterval := RevisedPublishingInterval sub;
     RevisedLifetimeCount := RevisedLifetimeCount sub;
     RevisedMaxKeepAliveCount := RevisedMaxKeepAliveCount sub;
     Notifs := Notifs sub;
     params := params sub;
     lastSequenceNumber := n |}.

(** [Client]. [session] is the [atomic.Value] holding a [*Session] ([None]
    is the nil pointer), [state] the one holding the [ConnState]; [subs] is
    the map guarded by [subMux]. Every [*Subscription] stored in [subs] is a
    non-nil pointer ([Subscribe] and [registerSubscription] dereference it
    before they store it), so the map holds the subscriptions themselves. *)
Record Client := {
  endpointURL : string;
  cfg : uasc.Config;
  sessionCfg : uasc.SessionConfig;
  sechan : option uasc.SecureChannel;
  session : option Session;
  subs : gmap Z Subscription;
  state : ConnState
}.

Definition set_sessionCfg (sc : uasc.SessionConfig) (c : Client) : Client :=
  {| endpointURL := endpointURL c; cfg := cfg c; sessionCfg := sc;
     sechan := sechan c; session := session c; subs := subs c;
     state := state c |}.

Definition set_session (s : option Session) (c : Client) : Client :=
  {| endpointURL := endpointURL c; cfg := cfg c; sessionCfg := sessionCfg c;
     sechan := sechan c; session := s; subs := subs c; state := state c |}.

Definition set_subs (m : gmap Z Subscription) (c : Client) : Client :=
  {| endpointURL := endpointURL c; cfg := cfg c; sessionCfg := sessionCfg c;
     sechan := sechan c; session := session c; subs := m; state := state c |}.

Definition set_state (st : ConnState) (c : Client) : Client :=
  {| endpointURL := endpointURL c; cfg := cfg c; sessionCfg := sessionCfg c;
     sechan := sechan c; session := session c; subs := subs c; state := st |}.

(** [NewClient], after [ApplyConfig] has produced the two configurations. *)
Definition NewClient (endpoint : string) (cfg0 : uasc.Config)
  (sessionCfg0 : uasc.SessionConfig) : Client :=
  {| endpointURL := endpoint; cfg := cfg0; sessionCfg := sessionCfg0;
     sechan := None; session := None; subs := ∅; state := Disconnected |}.

Definition State (c : Client) : ConnState := state c.

(** ** The reconnection supervisor: choice of the initial action *)

(** What [select] in [monitor] takes: [ctx.Done()], or a receive
    [err, ok := <-c.sechanErr]. *)
Inductive select_event :=
| ctx_Done
| sechanErr_receive (err : option error) (ok : bool).

(** The [switch err] of [monitor] with its nested type switch: the action
    recovery starts with. *)
Definition initial_action (err : option error) : reconnectAction :=
  match err with
  | Some io_EOF =>
      (* the connection has been closed *)
      createSecureChannel
  | Some (syscall_Errno errno) =>
      if decide (errno = ECONNREFUSED)
      then (* the connection has been refused by the server *) abortReconnect
      else createSecureChannel
  | Some (uacp_Error ErrorCode) =>
      if decide (ErrorCode = ua.StatusBadSecureChannelIDInvalid) then createSecureChannel
      else if decide (ErrorCode = ua.StatusBadSessionIDInvalid) then recreateSession
      else if decide (ErrorCode = ua.StatusBadSubscriptionIDInvalid) then restoreSubscriptions
      else if decide (ErrorCode = ua.StatusBadCertificateInvalid) then createSecureChannel
      else createSecureChannel
  | _ =>
      (* unknown error has occured *)
      createSecureChannel
  end.

(** One pass through the [select] of [monitor] up to the recovery loop.
    [monitor_returns c'] is a [return] (the deferred [c.state.Store(Closed)]
    has run); [monitor_recovers c' a] enters [for action != none] with
    action [a]. Pausing the subscriptions signals their goroutines and changes
    nothing in [Client]. *)
Inductive monitor_entry :=
| monitor_returns (c' : Client)
| monitor_recovers (c' : Client) (action : reconnectAction).

Definition monitor_select (c : Client) (ev : select_event) : monitor_entry :=
  match ev with
  | ctx_Done => monitor_returns (set_state Closed c)
  | sechanErr_receive err ok =>
      if negb ok || (bool_decide (err = Some io_EOF) && bool_decide (State c = Closed))
      then monitor_returns (set_state Closed c)
      else
        let c := set_state Disconnected c in
        if negb (uasc.AutoReconnect (cfg c))
        then monitor_returns (set_state Closed c)
        else
          let action := initial_action err in
          let c := set_state Disconnected c in
          monitor_recovers c action
  end.

(** ** Republishing *)

(** What one iteration of the loop in [sendRepublishRequests] meets.
    [c.sessionClosed()] is an atomic load of the session pointer, which other
    goroutines store to while the loop runs ([Close], [ActivateSession]), and
    [sub.republish(req)] is a method of the package's subscription file that
    returns what the server answers. Either the load finds the nil session
    ([SessionClosed]), or it finds a session and [sub.republish(req)] returns
    [(res, err)]. A run of the loop is driven by the list of these answers,
    one per iteration; a list that ends before the loop returns stands for a
    run that is still going. *)
Inductive republish_step :=
| SessionClosed
| Republished (res : option ua.RepublishResponse) (err : option error).

Definition RepublishRequest_for (sub : Subscription) (seq : Z) : ua.RepublishRequest :=
  {| ua.SubscriptionID := SubscriptionID sub;
     ua.RetransmitSequenceNumber := wrap32 (seq + 1) |}.

(** The [for] loop of [sendRepublishRequests] started with the local [seq].
    It returns the error, the requests handed to [sub.republish] in order,
    and the final value of the local [seq]. *)
Fixpoint republish_loop (sub : Subscription) (seq : Z) (script : list republish_step)
  : option (option error * list ua.RepublishRequest * Z) :=
  match script with
  | [] => None
  | step :: script' =>
      let req := RepublishRequest_for sub seq in
      let seq := wrap32 (seq + 1) in
      match step with
      | SessionClosed =>
          Some (Some (ua_StatusCode ua.StatusBadSessionClosed), [], seq)
      | Republished res err =>
          match err with
          | Some e =>
              if decide (e = ua_StatusCode ua.StatusBadMessageNotAvailable)
              then (* No more message to restore *) Some (None, [req], seq)
              else Some (Some e, [req], seq)
          | None =>
              let status :=
                match res with
                | Some r => ua.Republish_ServiceResult r
                | None => ua.StatusBad
                end in
              if decide (status <> ua.StatusOK)
              then Some (Some (ua_StatusCode status), [req], seq)
              else
                match republish_loop sub seq script' with
                | Some (e, reqs, seq') => Some (e, req :: reqs, seq')
                | None => None
                end
          end
      end
  end.

(** [sendRepublishRequests]. The statement
    [defer atomic.StoreUint32(&sub.lastSequenceNumber, seq)] evaluates its
    arguments when it is executed, before the loop: the value stored when the
    function returns is the one [seq] had then. *)
Definition sendRepublishRequests (sub : Subscription) (script : list republish_step)
  : option (option error * list ua.RepublishRequest * Subscription) :=
  let seq := lastSequenceNumber sub in
  let deferred_seq := seq in
  match republish_loop sub seq script with
  | Some (err, reqs, _) => Some (err, reqs, set_lastSequenceNumber deferred_seq sub)
  | None => None
  end.

(** A step on which the loop goes on: the server sent the message. *)
Definition recovers (step : republish_step) : bool :=
  match step with
  | Republished (Some r) None => bool_decide (ua.Republish_ServiceResult r = ua.StatusOK)
  | _ => false
  end.

(** The requests the spec expects from [republish]: [n] requests for the
    subscription with [RetransmitSequenceNumber] [last+1], [last+2], ...,
    [last+n] (in [uint32] arithmetic). *)
Fixpoint republish_requests (sub : Subscription) (last : Z) (n : nat)
  : list ua.RepublishRequest :=
  match n with
  | O => []
  | S n' => RepublishRequest_for sub last :: republish_requests sub (last + 1) n'
  end.

(** ** Sending requests *)

(** A location of the heap that holds the request structures a caller passes
    by pointer (see [Read] below). *)
Definition loc := positive.

(** A request as it is handed to the secure channel. *)
Inductive Request :=
| CreateSessionRequest_ (r : ua.CreateSessionRequest)
| CloseSessionRequest_ (r : ua.CloseSessionRequest)
| ReadRequest_ (p : loc)
| CallRequest_ (r : ua.CallRequest)
| CreateSubscriptionRequest_ (r : ua.CreateSubscriptionRequest)
| TransferSubscriptionsRequest_ (r : ua.TransferSubscriptionsRequest).

(** One call of [SendRequest] or [SendRequestWithTimeout] on the secure
    channel: the request, the authentication token and the timeout ([None]
    for [SendRequest], which uses the channel's default). *)
Record sent_request := {
  sent_req : Request;
  sent_authToken : option ua.NodeID;
  sent_timeout : option Z
}.

(** Modelled from the spec: [uasc.SecureChannel.SendRequest] and
    [SendRequestWithTimeout], which belong to package uasc. By the spec's
    secure-channel contract a request either fails (it cannot be sent, it
    times out, the channel dies, or the response carries a service status
    that is not OK) or its decoded response body is passed to the callback,
    whose error is the result. *)
Inductive send_outcome :=
| send_fails (e : error)
| send_delivers (v : Response).

(** A handler [func(v interface{}) error] is a closure over local variables
    of its caller, of type [S] here: it maps the body and their values to
    their new values and the error. *)
Definition SendRequest {S : Type} (o : send_outcome)
  (h : Response -> S -> S * option error) (locals : S) : S * option error :=
  match o with
  | send_fails e => (locals, Some e)
  | send_delivers v => h v locals
  end.

(** What a method of [Client] leaves behind: what it returns, the client
    after the call, and the requests it handed to the secure channel. *)
Record result (A : Type) := mk_result {
  ret : A;
  ret_err : option error;
  after : Client;
  handed : list sent_request
}.
Arguments mk_result {A} _ _ _ _.
Arguments ret {A} _.
Arguments ret_err {A} _.
Arguments after {A} _.
Arguments handed {A} _.

(** A call returns or panics (nil dereference, index out of range). *)
Inductive outcome (A : Type) :=
| Returns (r : A)
| Panics.
Arguments Returns {A} _.
Arguments Panics {A}.

(** [sendWithTimeout]: the request goes out with the authentication token of
    the active session, if there is one. *)
Definition sendWithTimeout {S : Type} (c : Client) (req : Request) (timeout : Z)
  (o : send_outcome) (h : Response -> S -> S * option error) (locals : S)
  : S * option error * list sent_request :=
  match sechan c with
  | None => (locals, Some (ua_StatusCode ua.StatusBadServerNotConnected), [])
  | Some _ =>
      let authToken :=
        match session c with
        | Some s => ua.AuthenticationToken (resp s)
        | None => None
        end in
      (SendRequest o h locals,
       [ {| sent_req := req; sent_authToken := authToken;
            sent_timeout := Some timeout |} ])
  end.

(** The record of a request that goes out through [Send]. *)
Definition sent_by_Send (c : Client) (req : Request) : sent_request :=
  {| sent_req := req;
     sent_authToken :=
       match session c with
       | Some s => ua.AuthenticationToken (resp s)
       | None => None
       end;
     sent_timeout := Some (uasc.RequestTimeout (cfg c)) |}.

Definition Send {S : Type} (c : Client) (req : Request)
  (o : send_outcome) (h : Response -> S -> S * option error) (locals : S)
  : S * option error * list sent_request :=
  sendWithTimeout c req (uasc.RequestTimeout (cfg c)) o h locals.

(** The handler [func(v interface{}) error { return safeAssign(v, &res) }]. *)
Definition assign_response `{ResponseType T} (v : Response) (res : option T)
  : option T * option error :=
  safeAssign v res.

(** ** Sessions *)

(** [closeSession(s)] *)
Definition closeSession (c : Client) (s : option Session) (o : send_outcome)
  : option error * list sent_request :=
  match s with
  | None => (None, [])
  | Some _ =>
      let req := {| ua.DeleteSubscriptions := true |} in
      let '(_, err, sent) :=
        Send c (CloseSessionRequest_ req) o assign_response
          (None : option ua.CloseSessionResponse) in
      (err, sent)
  end.

Definition Session_ (c : Client) : option Session := session c.


(** [CloseSession]: when closing fails the error is returned and the store
    of the nil session is not reached. *)
Definition CloseSession (c : Client) (o : send_outcome) : result unit :=
  let '(err, sent) := closeSession c (Session_ c) o in
  match err with
  | Some e => mk_result tt (Some e) c sent
  | None => mk_result tt None (set_session None c) sent
  end.


Definition defaultAnonymousPolicyID : string := "Anonymous".

(** The inner loop of [anonymousPolicyID] over [e.UserIdentityTokens]. *)
Fixpoint anonymous_token_policy (tokens : list ua.UserTokenPolicy) : option string :=
  match tokens with
  | [] => None
  | t :: tokens' =>
      if decide (ua.TokenType t = ua.UserTokenTypeAnonymous)
      then Some (ua.PolicyID t)
      else anonymous_token_policy tokens'
  end.

Fixpoint anonymousPolicyID (endpoints : list ua.EndpointDescription) : string :=
  match endpoints with
  | [] => defaultAnonymousPolicyID
  | e :: endpoints' =>
      if bool_decide (ua.SecurityMode e <> ua.MessageSecurityModeNone)
         || bool_decide (ua.SecurityPolicyURI e <> ua.SecurityPolicyURINone)
      then anonymousPolicyID endpoints'
      else
        match anonymous_token_policy (ua.UserIdentityTokens e) with
        | Some p => p
        | None => anonymousPolicyID endpoints'
        end
  end.

(** Modelled from the spec: the option [AuthAnonymous()] of the package's
    configuration file, applied to a session configuration. "If no user
    identity token was configured, default to Anonymous". *)
Definition AuthAnonymous (sc : uasc.SessionConfig) : uasc.SessionConfig :=
  match uasc.UserIdentityToken sc with
  | None => uasc.set_UserIdentityToken (Some (ua.AnonymousIdentityToken "")) sc
  | Some _ => sc
  end.

(** Modelled from the spec: the option [AuthPolicyID(policy)] of the
    package's configuration file. "... with the policy id advertised by the
    server's endpoints": the policy id of the configured token is set. *)
Definition AuthPolicyID (policy : string) (sc : uasc.SessionConfig)
  : uasc.SessionConfig :=
  match uasc.UserIdentityToken sc with
  | None => sc
  | Some (ua.AnonymousIdentityToken _) =>
      uasc.set_UserIdentityToken (Some (ua.AnonymousIdentityToken policy)) sc
  | Some (ua.UserNameIdentityToken _ u p a) =>
      uasc.set_UserIdentityToken (Some (ua.UserNameIdentityToken policy u p a)) sc
  | Some (ua.X509IdentityToken _ d) =>
      uasc.set_UserIdentityToken (Some (ua.X509IdentityToken policy d)) sc
  | Some (ua.IssuedIdentityToken _ d a) =>
      uasc.set_UserIdentityToken (Some (ua.IssuedIdentityToken policy d a)) sc
  end.

(** What [CreateSession] takes from outside the client: the bytes
    [rand.Read] produces (or its error), the clock, the answer of the secure
    channel, and [c.sechan.VerifySessionSignature]. *)
Record CreateSession_env := {
  rand_bytes : bytes;
  rand_err : option error;
  UnixNano : Z;
  answer : send_outcome;
  VerifySessionSignature : bytes -> bytes -> bytes -> option error
}.

Definition deref_cfg (c : Client) (p : SessionConfigPtr) : uasc.SessionConfig :=
  match p with
  | ptr_sessionCfg => sessionCfg c
  | ptr_other sc => sc
  end.

(** The response handler of [CreateSession]. Its locals are the client's
    session configuration, which it may fill in, and the variable [s]. *)
Definition CreateSession_handler (cfg_ptr : SessionConfigPtr) (nonce : bytes)
  (verify : bytes -> bytes -> bytes -> option error)
  (v : Response) (locals : uasc.SessionConfig * option Session)
  : (uasc.SessionConfig * option Session) * option error :=
  let '(scfg, s) := locals in
  match safeAssign v (None : option ua.CreateSessionResponse) with
  | (_, Some err) => ((scfg, s), Some err)
  | (None, None) => (* not reached: [safeAssign] sets [res] when it returns nil *)
      ((scfg, s), None)
  | (Some res, None) =>
      match verify (ua.ServerCertificate res) nonce
              (ua.Signature (ua.ServerSignature res)) with
      | Some _ =>
          (* log.Printf("error verifying session signature: %s", err) *)
          ((scfg, s), None)
      | None =>
          let scfg :=
            match uasc.UserIdentityToken scfg with
            | None =>
                let scfg := AuthAnonymous scfg in
                let p := anonymousPolicyID (ua.ServerEndpoints res) in
                AuthPolicyID p scfg
            | Some _ => scfg
            end in
          let s := Some {| sess_cfg := cfg_ptr;
                           resp := res;
                           serverNonce := ua.ServerNonce res;
                           serverCertificate := ua.ServerCertificate res |} in
          ((scfg, s), None)
      end
  end.

(** [CreateSession] *)
Definition CreateSession (c : Client) (cfg_ptr : SessionConfigPtr)
  (env : CreateSession_env) : result (option Session) :=
  match sechan c with
  | None => mk_result None (Some (ua_StatusCode ua.StatusBadServerNotConnected)) c []
  | Some _ =>
      let nonce := resize 32 Byte.x00 (rand_bytes env) in
      match rand_err env with
      | Some err => mk_result None (Some err) c []
      | None =>
          let cfg_ := deref_cfg c cfg_ptr in
          let name := uasc.SessionName cfg_ in
          let name :=
            if decide (name = "")
            then "gopcua-" +:+ pretty (UnixNano env)
            else name in
          let req :=
            {| ua.ClientDescription := uasc.ClientDescription cfg_;
               ua.EndpointURL := endpointURL c;
               ua.SessionName := name;
               ua.ClientNonce := nonce;
               ua.ClientCertificate := uasc.Certificate (cfg c);
               ua.RequestedSessionTimeout :=
                 Z.quot (uasc.SessionTimeout cfg_) Millisecond |} in
          (* for the CreateSessionRequest the authToken is always nil *)
          let '((scfg, s), err) :=
            SendRequest (answer env)
              (CreateSession_handler cfg_ptr nonce (VerifySessionSignature env))
              (sessionCfg c, None) in
          mk_result s err (set_sessionCfg scfg c)
            [ {| sent_req := CreateSessionRequest_ req; sent_authToken := None;
                 sent_timeout := None |} ]
      end
  end.

(** ** Service helpers *)

(** [Call] *)
Definition Call (c : Client) (req : option ua.CallMethodRequest) (o : send_outcome)
  : outcome (result (option ua.CallMethodResult)) :=
  let creq := {| ua.MethodsToCall := [req] |} in
  let '(res, err, sent) :=
    Send c (CallRequest_ creq) o assign_response (None : option ua.CallResponse) in
  match err with
  | Some e => Returns (mk_result None (Some e) c sent)
  | None =>
      match res with
      | None => (* res.Results on a nil pointer *) Panics
      | Some res =>
          if decide (length (ua.Results res) <> 1%nat)
          then Returns (mk_result None (Some (ua_StatusCode ua.StatusBadUnknownResponse))
                          c sent)
          else
            match ua.Results res !! 0%nat with
            | Some r => Returns (mk_result r None c sent)
            | None => (* index out of range *) Panics
            end
      end
  end.

(** ** Subscriptions *)

(** The result of a Go [int64] multiplication. *)
Definition wrap_int64 (n : Z) : Z := (n + 2 ^ 63) mod 2 ^ 64 - 2 ^ 63.

(** Modelled from the spec: [SubscriptionParameters.setDefaults] and the
    [DefaultSubscription*] constants of the package's subscription file.
    "Fill defaults for any zero-valued parameter (interval, lifetime count,
    keep-alive count, max notifications, priority)"; the values are the
    library's documented defaults. *)
Definition DefaultSubscriptionMaxNotificationsPerPublish : Z := 10000.
Definition DefaultSubscriptionLifetimeCount : Z := 10000.
Definition DefaultSubscriptionMaxKeepAliveCount : Z := 3000.
Definition DefaultSubscriptionInterval : Z := 100 * Millisecond.
Definition DefaultSubscriptionPriority : Z := 0.

Definition setDefaults (p : SubscriptionParameters) : SubscriptionParameters :=
  let or_default (v d : Z) := if decide (v = 0) then d else v in
  {| Interval := or_default (Interval p) DefaultSubscriptionInterval;
     LifetimeCount := or_default (LifetimeCount p) DefaultSubscriptionLifetimeCount;
     MaxKeepAliveCount :=
       or_default (MaxKeepAliveCount p) DefaultSubscriptionMaxKeepAliveCount;
     MaxNotificationsPerPublish :=
       or_default (MaxNotificationsPerPublish p)
         DefaultSubscriptionMaxNotificationsPerPublish;
     Priority := or_default (Priority p) DefaultSubscriptionPriority |}.

(** [Subscribe]. [params] may be nil; [notifyCh] names the caller's
    channel. *)
Definition Subscribe (c : Client) (params : option SubscriptionParameters)
  (notifyCh : Z) (o : send_outcome) : outcome (result (option Subscription)) :=
  let params :=
    match params with
    | Some p => p
    | None => {| Interval := 0; LifetimeCount := 0; MaxKeepAliveCount := 0;
                 MaxNotificationsPerPublish := 0; Priority := 0 |}
    end in
  let params := setDefaults params in
  let req :=
    {| ua.RequestedPublishingInterval := Z.quot (Interval params) Millisecond;
       ua.RequestedLifetimeCount := LifetimeCount params;
       ua.RequestedMaxKeepAliveCount := MaxKeepAliveCount params;
       ua.PublishingEnabled := true;
       ua.MaxNotificationsPerPublish := MaxNotificationsPerPublish params;
       ua.Priority := Priority params |} in
  let '(res, err, sent) :=
    Send c (CreateSubscriptionRequest_ req) o assign_response
      (None : option ua.CreateSubscriptionResponse) in
  match err with
  | Some e => Returns (mk_result None (Some e) c sent)
  | None =>
      match res with
      | None => (* res.ResponseHeader on a nil pointer *) Panics
      | Some res =>
          if decide (ua.CreateSubscription_ServiceResult res <> ua.StatusOK)
          then Returns (mk_result None
                          (Some (ua_StatusCode (ua.CreateSubscription_ServiceResult res)))
                          c sent)
          else
            let sub :=
              {| SubscriptionID := ua.CreatedSubscriptionID res;
                 RevisedPublishingInterval :=
                   wrap_int64 (ua.RevisedPublishingInterval res * Millisecond);
                 RevisedLifetimeCount := ua.RevisedLifetimeCount res;
                 RevisedMaxKeepAliveCount := ua.RevisedMaxKeepAliveCount res;
                 Notifs := notifyCh;
                 params := params;
                 lastSequenceNumber := 0 |} in
            if bool_decide (SubscriptionID sub = 0)
               || bool_decide (subs c !! SubscriptionID sub <> None)
            then
              (* this should not happen and is usually indicative of a server bug *)
              Returns (mk_result None
                         (Some (ua_StatusCode ua.StatusBadSubscriptionIDInvalid)) c sent)
            else
              Returns (mk_result (Some sub) None
                         (set_subs (<[SubscriptionID sub := sub]> (subs c)) c) sent)
      end
  end.

(** [registerSubscription] *)
Definition registerSubscription (c : Client) (sub : Subscription) : result unit :=
  if decide (SubscriptionID sub = 0)
  then mk_result tt (Some (ua_StatusCode ua.StatusBadSubscriptionIDInvalid)) c []
  else
    match subs c !! SubscriptionID sub with
    | Some _ =>
        mk_result tt
          (Some (errors_Errorf ("SubscriptionID " +:+ pretty (SubscriptionID sub)
                                  +:+ " already registered")))
          c []
    | None =>
        mk_result tt None (set_subs (<[SubscriptionID sub := sub]> (subs c)) c) []
    end.

(** [forgetSubscription] *)
Definition forgetSubscription (c : Client) (id : Z) : Client :=
  set_subs (delete id (subs c)) c.

(** A call that changes the subscription registry. *)
Inductive registry_call :=
| call_Subscribe (params : option SubscriptionParameters) (notifyCh : Z)
    (o : send_outcome)
| call_registerSubscription (sub : Subscription)
| call_forgetSubscription (id : Z).

(** The client after a call (a call that panics has stored nothing). *)
Definition after_call (c : Client) (call : registry_call) : Client :=
  match call with
  | call_Subscribe params notifyCh o =>
      match Subscribe c params notifyCh o with
      | Returns r => after r
      | Panics => c
      end
  | call_registerSubscription sub => after (registerSubscription c sub)
  | call_forgetSubscription id => forgetSubscription c id
  end.

(** The registry invariant of the spec: no entry has id 0, and the entries
    are keyed by their own id, so that no two of them share one. *)
Definition registry_ok (m : gmap Z Subscription) : Prop :=
  m !! 0 = None /\
  (forall k sub, m !! k = Some sub -> SubscriptionID sub = k) /\
  (forall k1 k2 sub1 sub2,
     m !! k1 = Some sub1 -> m !! k2 = Some sub2 -> k1 <> k2 ->
     SubscriptionID sub1 <> SubscriptionID sub2).

(** ** The heap of request structures and [Read] *)

Module heap.

(** [ua.RequestHeader], set by the secure channel when a request goes out. *)
Record RequestHeader := { RequestHandle : Z; TimeoutHint : Z }.

(** [ua.ReadValueID]. [NodeID] and [DataEncoding] are pointers that [Read]
    copies and never writes through; they are kept as what they point to. *)
Record ReadValueID := {
  NodeID : option ua.NodeID;
  AttributeID : Z;
  IndexRange : string;
  DataEncoding : option ua.QualifiedName
}.

(** [ua.ReadRequest]. [MaxAge] is a float64, kept as its bit pattern (the
    client only copies it); [NodesToRead] is a slice of pointers. *)
Record ReadRequest := {
  Header : option RequestHeader;
  MaxAge : Z;
  TimestampsToReturn : Z;
  NodesToRead : list (option loc)
}.

Inductive object :=
| obj_ReadRequest (r : ReadRequest)
| obj_ReadValueID (rv : ReadValueID).

(** The objects allocated so far, by address. *)
Abbreviation t := (gmap loc object).

(** [*p] for a [p *ua.ReadRequest]; [None] is the nil-pointer panic. *)
Definition load_ReadRequest (h : t) (p : option loc) : option ReadRequest :=
  match p with
  | None => None
  | Some l => match h !! l with Some (obj_ReadRequest r) => Some r | _ => None end
  end.

Definition load_ReadValueID (h : t) (p : option loc) : option ReadValueID :=
  match p with
  | None => None
  | Some l => match h !! l with Some (obj_ReadValueID rv) => Some rv | _ => None end
  end.

(** [&T{...}]: a new object at an address not in use. *)
Definition alloc (h : t) (o : object) : loc * t :=
  let l := fresh (dom h) in (l, <[l := o]> h).

End heap.

(** The body of the loop of [Read] after [*rc = *rv]: the defaults. *)
Definition fill_defaults (rc : heap.ReadValueID) : heap.ReadValueID :=
  let rc :=
    if decide (heap.AttributeID rc = 0)
    then {| heap.NodeID := heap.NodeID rc;
            heap.AttributeID := ua.AttributeIDValue;
            heap.IndexRange := heap.IndexRange rc;
            heap.DataEncoding := heap.DataEncoding rc |}
    else rc in
  match heap.DataEncoding rc with
  | None => {| heap.NodeID := heap.NodeID rc;
               heap.AttributeID := heap.AttributeID rc;
               heap.IndexRange := heap.IndexRange rc;
               heap.DataEncoding := Some {| ua.NamespaceIndex := 0; ua.Name := "" |} |}
  | Some _ => rc
  end.

(** The loop [for i, rv := range req.NodesToRead] of [Read]: each entry is
    copied into a new [ReadValueID], the defaults are set on the copy, and
    the copy's address goes to [rvs[i]]. *)
Fixpoint clone_ReadValueIDs (h : heap.t) (nodes : list (option loc))
  : outcome (heap.t * list (option loc)) :=
  match nodes with
  | [] => Returns (h, [])
  | rv :: nodes' =>
      match heap.load_ReadValueID h rv with
      | None => (* *rv on a nil pointer *) Panics
      | Some v =>
          let '(rc, h) := heap.alloc h (heap.obj_ReadValueID (fill_defaults v)) in
          match clone_ReadValueIDs h nodes' with
          | Returns (h', rvs) => Returns (h', Some rc :: rvs)
          | Panics => Panics
          end
      end
  end.

(** [Read]. The caller passes a pointer [req] into the heap [h]; the result
    comes with the heap after the call. *)
Definition Read (c : Client) (h : heap.t) (req : option loc) (o : send_outcome)
  : outcome (result (option ua.ReadResponse) * heap.t) :=
  match heap.load_ReadRequest h req with
  | None => (* req.NodesToRead on a nil pointer *) Panics
  | Some r =>
      match clone_ReadValueIDs h (heap.NodesToRead r) with
      | Panics => Panics
      | Returns (h, rvs) =>
          let '(req, h) :=
            heap.alloc h
              (heap.obj_ReadRequest
                 {| heap.Header := None;
                    heap.MaxAge := heap.MaxAge r;
                    heap.TimestampsToReturn := heap.TimestampsToReturn r;
                    heap.NodesToRead := rvs |}) in
          let '(res, err, sent) :=
            Send c (ReadRequest_ req) o assign_response (None : option ua.ReadResponse) in
          Returns (mk_result res err c sent, h)
      end
  end.

(** What the spec says of the entries [Read] sends: [rc] is [v] with
    [AttributeID] set to the Value attribute when it was 0 and [DataEncoding]
    set to a non-nil empty QualifiedName when it was nil. *)
Definition defaulted_copy (v rc : heap.ReadValueID) : Prop :=
  heap.NodeID rc = heap.NodeID v /\
  heap.IndexRange rc = heap.IndexRange v /\
  heap.AttributeID rc
  = (if decide (heap.AttributeID v = 0) then ua.AttributeIDValue else heap.AttributeID v) /\
  heap.DataEncoding rc
  = match heap.DataEncoding v with
    | None => Some {| ua.NamespaceIndex := 0; ua.Name := "" |}
    | Some q => Some q
    end.

(** A request a caller can pass to [Read]: [req] points to a ReadRequest
    whose entries point to ReadValueIDs. *)
Definition valid_ReadRequest (h : heap.t) (req : option loc) : Prop :=
  exists r, heap.load_ReadRequest h req = Some r /\
    Forall (fun p => is_Some (heap.load_ReadValueID h p)) (heap.NodesToRead r).

(** ** The reconnection supervisor: republishing and restoring subscriptions *)

(** [c.subscriptionIDs()] ranges over the map [c.subs]; the order of a Go
    map iteration is not fixed, so every arrangement of the registered ids is
    a possible result. *)
Definition subscriptionIDs (c : Client) (ids : list Z) : Prop :=
  ids ≡ₚ (map_to_list (subs c)).*1.

(** Modelled from the spec: [Subscription.restore], a method of the package's
    subscription file; the supervisor only looks at the error it returns,
    given here per subscription id. *)
Definition restore_answers := Z -> option error.

(** [Client.restoreSubscriptions(ids)] (the method, not the action of the same
    name): ids that are not registered are skipped, the first failing restore
    ends the loop. *)
Fixpoint Client_restoreSubscriptions (c : Client) (ids : list Z)
  (restore : restore_answers) : option error :=
  match ids with
  | [] => None
  | id :: ids' =>
      match subs c !! id with
      | None => (* Cannot restore subscription *)
          Client_restoreSubscriptions c ids' restore
      | Some sub =>
          match restore id with
          | Some err => Some err
          | None => Client_restoreSubscriptions c ids' restore
          end
      end
  end.

(** [transferSubscriptions] *)
Definition transferSubscriptions (c : Client) (ids : list Z) (o : send_outcome)
  : option ua.TransferSubscriptionsResponse * option error * list sent_request :=
  let req := {| ua.SubscriptionIDs := ids; ua.SendInitialValues := false |} in
  Send c (TransferSubscriptionsRequest_ req) o assign_response
    (None : option ua.TransferSubscriptionsResponse).

(** [republishSubscription(id)]. The subscription is the object the registry
    points to, so what [sendRepublishRequests] stores in it is seen through
    the registry. [None]: the loop has not returned. *)
Definition republishSubscription (c : Client) (id : Z) (script : list republish_step)
  : option (option error * Client * list ua.RepublishRequest) :=
  match subs c !! id with
  | None =>
      Some (Some (errors_Errorf ("invalid subscription id " +:+ pretty id)), c, [])
  | Some sub =>
      match sendRepublishRequests sub script with
      | None => None
      | Some (err, reqs, sub') =>
          let c' := set_subs (<[id := sub']> (subs c)) c in
          match err with
          | None => Some (None, c', reqs)
          | Some (ua_StatusCode status) =>
              if decide (status = ua.StatusBadSessionIDInvalid) then Some (None, c', reqs)
              else if decide (status = ua.StatusBadSubscriptionIDInvalid) then
                Some (Some (errors_Errorf
                              ("republish failed since subscription "
                               +:+ pretty (SubscriptionID sub') +:+ " is invalid")),
                      c', reqs)
              else Some (None, c', reqs)
          | Some e => (* err.(ua.StatusCode) fails *) Some (Some e, c', reqs)
          end
      end
  end.

(** The loop over [res.Results] in the restoreSubscriptions case of
    [monitor], from index [i] on. The arguments of [debug.Printf] are
    evaluated whether or not debugging is on: [subIDs[i]] in both branches and
    [transferResult.AvailableSequenceNumbers[i]] in the second. *)
Fixpoint sort_transfer_results (subIDs : list Z) (results : list ua.TransferResult)
  (i : nat) (subsToRepublish subsToRestore : list Z) : outcome (list Z * list Z) :=
  match results with
  | [] => Returns (subsToRepublish, subsToRestore)
  | transferResult :: results' =>
      if decide (ua.TransferStatusCode transferResult = ua.StatusBadSubscriptionIDInvalid)
      then
        match subIDs !! i with
        | None => Panics
        | Some id =>
            sort_transfer_results subIDs results' (S i)
              subsToRepublish (subsToRestore ++ [id])
        end
      else
        match subIDs !! i, ua.AvailableSequenceNumbers transferResult !! i with
        | Some id, Some _ =>
            sort_transfer_results subIDs results' (S i)
              (subsToRepublish ++ [id]) subsToRestore
        | _, _ => Panics
        end
  end.

(** The first part of the case: the transfer and what it leaves in
    [subsToRepublish] and [subsToRestore]. *)
Definition transfer_and_sort (c : Client) (subIDs : list Z) (o : send_outcome)
  : outcome (list Z * list Z) :=
  let '(res, err, _) := transferSubscriptions c subIDs o in
  match err with
  | Some _ => (* Transfer subscriptions failed *) Returns ([], subIDs)
  | None =>
      match res with
      | None => (* res.Results on a nil pointer *) Panics
      | Some res => sort_transfer_results subIDs (ua.TransferResults res) 0 [] []
      end
  end.

(** The loop [for _, id := range subsToRepublish]: an id is appended to
    [subsToRestore] when its republish returns an error. *)
Fixpoint republish_each (c : Client) (scripts : Z -> list republish_step)
  (subsToRepublish subsToRestore : list Z) : option (Client * list Z) :=
  match subsToRepublish with
  | [] => Some (c, subsToRestore)
  | id :: ids =>
      match republishSubscription c id (scripts id) with
      | None => None
      | Some (Some _, c', _) => republish_each c' scripts ids (subsToRestore ++ [id])
      | Some (None, c', _) => republish_each c' scripts ids subsToRestore
      end
  end.

(** What the supervisor meets in the restoreSubscriptions case: the answer
    to the transfer request, what the republish loop of each subscription
    meets, and the errors of [sub.restore()]. *)
Record recovery_env := {
  transfer_answer : send_outcome;
  republish_scripts : Z -> list republish_step;
  restore_errors : restore_answers
}.

(** The restoreSubscriptions case of [monitor] up to the call of
    [c.restoreSubscriptions]: the final [subsToRepublish] and
    [subsToRestore]. [None]: a republish loop has not returned. *)
Definition restore_set (c : Client) (subIDs : list Z) (env : recovery_env)
  : option (outcome (Client * list Z * list Z)) :=
  match transfer_and_sort c subIDs (transfer_answer env) with
  | Panics => Some Panics
  | Returns (subsToRepublish, subsToRestore) =>
      match republish_each c (republish_scripts env) subsToRepublish subsToRestore with
      | None => None
      | Some (c', subsToRestore) => Some (Returns (c', subsToRepublish, subsToRestore))
      end
  end.

(** The whole case, with [subIDs] the result of [c.subscriptionIDs()]: the
    client and the next action. Resuming and pausing the subscriptions signal
    their goroutines and change nothing in [Client]. *)
Definition restoreSubscriptions_case (c : Client) (subIDs : list Z) (env : recovery_env)
  : option (outcome (Client * reconnectAction)) :=
  match restore_set c subIDs env with
  | None => None
  | Some Panics => Some Panics
  | Some (Returns (c, _, subsToRestore)) =>
      if decide (0 < length subsToRestore)%nat
      then
        match Client_restoreSubscriptions c subsToRestore (restore_errors env) with
        | Some _ => (* Restore subscripitions failed *)
            Some (Returns (c, recreateSession))
        | None => Some (Returns (set_state Connected c, none))
        end
      else Some (Returns (set_state Connected c, none))
  end.

(** Whether the republish of [id] returns an error. *)
Definition republish_failed (c : Client) (scripts : Z -> list republish_step) (id : Z)
  : bool :=
  match republishSubscription c id (scripts id) with
  | Some (Some _, _, _) => true
  | _ => false
  end.

(** ** Endpoint selection *)

(** [bySecurityLevel.Less] *)
Definition bySecurityLevel_Less (a b : ua.EndpointDescription) : Prop :=
  ua.SecurityLevel a < ua.SecurityLevel b.

(** [sort.Reverse]: the order with [Less] turned around. *)
Definition sort_Reverse {A : Type} (Less : A -> A -> Prop) : A -> A -> Prop :=
  fun a b => Less b a.

(** What [sort.Sort] guarantees of the slice it has sorted in place: the same
    elements, and no element [Less] than one that stands before it. The sort
    is not stable, so elements that compare equal may come in any order. *)
Definition sort_Sort {A : Type} (Less : A -> A -> Prop) (data sorted : list A) : Prop :=
  sorted ≡ₚ data /\ StronglySorted (fun a b => ~ Less b a) sorted.

(** The [for _, p := range endpoints] loop of [SelectEndpoint]. *)
Fixpoint first_matching_endpoint (policy : string) (mode : ua.MessageSecurityMode)
  (endpoints : list ua.EndpointDescription) : option ua.EndpointDescription :=
  match endpoints with
  | [] => None
  | p :: endpoints' =>
      if bool_decide (policy = "") && bool_decide (ua.SecurityMode p = mode)
      then (* match only security mode *) Some p
      else if bool_decide (ua.SecurityPolicyURI p = policy)
              && bool_decide (mode = ua.MessageSecurityModeInvalid)
      then (* match only security policy *) Some p
      else if bool_decide (ua.SecurityPolicyURI p = policy)
              && bool_decide (ua.SecurityMode p = mode)
      then (* match both *) Some p
      else first_matching_endpoint policy mode endpoints'
  end.

(** [SelectEndpoint]. [FormatSecurityPolicyURI] is the function of package
    ua, [sort] what [sort.Sort(sort.Reverse(bySecurityLevel(endpoints)))] makes
    of the slice. The result is the endpoint returned and the caller's slice
    as the call leaves it. *)
Definition SelectEndpoint (FormatSecurityPolicyURI : string -> string)
  (sort : list ua.EndpointDescription -> list ua.EndpointDescription)
  (endpoints : list ua.EndpointDescription) (policy : string)
  (mode : ua.MessageSecurityMode)
  : option ua.EndpointDescription * list ua.EndpointDescription :=
  if decide (length endpoints = 0%nat) then (None, endpoints)
  else
    let endpoints := sort endpoints in
    let policy := FormatSecurityPolicyURI policy in
    if bool_decide (policy = "") && bool_decide (mode = ua.MessageSecurityModeInvalid)
    then (* don't care -> return highest security level *) (head endpoints, endpoints)
    else (first_matching_endpoint policy mode endpoints, endpoints).

(** A sort that meets [sort_Sort] for the reversed order by security level. *)
Definition level_ge (a b : ua.EndpointDescription) : Prop :=
  ua.SecurityLevel b <= ua.SecurityLevel a.

#[global] Instance level_ge_dec : RelDecision level_ge.
Proof. intros a b. unfold level_ge. apply _. Defined.

Definition sort_by_level_desc
  : list ua.EndpointDescription -> list ua.EndpointDescription :=
  merge_sort level_ge.

(** An endpoint fits the request: the policy (after formatting) and the mode
    both match, where an empty policy and the invalid mode match anything. *)
Definition endpoint_matches (policy : string) (mode : ua.MessageSecurityMode)
  (e : ua.EndpointDescription) : Prop :=
  (policy = "" \/ ua.SecurityPolicyURI e = policy) /\
  (mode = ua.MessageSecurityModeInvalid \/ ua.SecurityMode e = mode).

#[global] Instance endpoint_matches_dec policy mode e :
  Decision (endpoint_matches policy mode e).
Proof. unfold endpoint_matches. apply _. Defined.

(** An endpoint [anonymousPolicyID] looks into: security mode None and the
    None security policy. *)
Definition unsecured (e : ua.EndpointDescription) : Prop :=
  ua.SecurityMode e = ua.MessageSecurityModeNone /\
  ua.SecurityPolicyURI e = ua.SecurityPolicyURINone.

Definition is_anonymous (t : ua.UserTokenPolicy) : Prop :=
  ua.TokenType t = ua.UserTokenTypeAnonymous.


(** Whether the transfer result means that the subscription has to be
    recreated. *)
Definition transfer_rejected (r : ua.TransferResult) : Prop :=
  ua.TransferStatusCode r = ua.StatusBadSubscriptionIDInvalid.

(** ** Dialling, closing and the reconnect loop *)

Module uacp.
(** An open transport connection, [*uacp.Conn]. *)
Record Conn := { ConnID : Z }.
End uacp.

(** [Client] with the fields that only [Dial], [Close] and the supervisor's
    createSecureChannel step touch: the transport connection [c.conn], whether
    [c.sessionOnce] has fired, and whether [c.sechanErr] has been closed.
    Nothing but [Dial]'s [sessionOnce] stores to [c.session] before a channel
    exists, so as long as [sessionOnce_done] is false the [atomic.Value] is
    empty. *)
Record Connection := {
  client : Client;
  conn : option uacp.Conn;
  sessionOnce_done : bool;
  sechanErr_closed : bool
}.

Definition set_client (c : Client) (k : Connection) : Connection :=
  {| client := c; conn := conn k; sessionOnce_done := sessionOnce_done k;
     sechanErr_closed := sechanErr_closed k |}.

Definition set_sechan (sc : option uasc.SecureChannel) (c : Client) : Client :=
  {| endpointURL := endpointURL c; cfg := cfg c; sessionCfg := sessionCfg c;
     sechan := sc; session := session c; subs := subs c; state := state c |}.

(** A client fresh from [NewClient]. *)
Definition NewConnection (endpoint : string) (cfg0 : uasc.Config)
  (sessionCfg0 : uasc.SessionConfig) : Connection :=
  {| client := NewClient endpoint cfg0 sessionCfg0; conn := None;
     sessionOnce_done := false; sechanErr_closed := false |}.

(** What one call of [Dial] meets outside the client: [uacp.Dial] gives a
    connection or an error, [uasc.NewSecureChannel] a channel or an error (a
    nil pointer comes with the error), and [c.sechan.Open(ctx)] an error or
    nil. *)
Record Dial_env := {
  uacp_Dial : uacp.Conn + error;
  NewSecureChannel : uasc.SecureChannel + error;
  Open : option error
}.

Definition already_connected : error :=
  errors_Errorf "secure channel already connected".

(** [Dial] *)
Definition Dial (k : Connection) (env : Dial_env) : Connection * option error :=
  let k :=
    if sessionOnce_done k then k
    else {| client := set_session None (client k); conn := conn k;
            sessionOnce_done := true; sechanErr_closed := sechanErr_closed k |} in
  match sechan (client k) with
  | Some _ => (k, Some already_connected)
  | None =>
      match uacp_Dial env with
      | inr err =>
          ({| client := client k; conn := None; sessionOnce_done := sessionOnce_done k;
              sechanErr_closed := sechanErr_closed k |}, Some err)
      | inl cn =>
          let k := {| client := client k; conn := Some cn;
                      sessionOnce_done := sessionOnce_done k;
                      sechanErr_closed := sechanErr_closed k |} in
          match NewSecureChannel env with
          | inr err => (* c.conn.Close() *)
              (set_client (set_sechan None (client k)) k, Some err)
          | inl sc =>
              (set_client (set_sechan (Some sc) (client k)) k, Open env)
          end
      end
  end.

(** [Close]. [c.Session()] asserts the type of what [c.session] holds and
    panics while nothing is stored; the deferred [close(c.sechanErr)] panics on
    a channel that is closed. The results of [c.sechan.Close()] and
    [c.conn.Close()] are dropped. [o] is the answer to the
    CloseSessionRequest. The error returned is always nil. *)
Definition Close (k : Connection) (o : send_outcome)
  : outcome (Connection * option error * list sent_request) :=
  if negb (sessionOnce_done k) then Panics
  else
    let r := CloseSession (client k) o in
    let c := set_state Closed (after r) in
    if sechanErr_closed k then Panics
    else
      Returns ({| client := c; conn := conn k; sessionOnce_done := sessionOnce_done k;
                  sechanErr_closed := true |}, None, handed r).

(** One round of the [for] loop in the createSecureChannel step: what [Dial]
    meets, and whether the context is cancelled before the reconnect interval
    has passed. *)
Record attempt := {
  dial : Dial_env;
  ctx_Done_first : bool
}.

(** The loop [for { if err := c.Dial(ctx); err != nil {...}; break }].
    [Some (k, true)]: the loop is left by [break]; [Some (k, false)]: [monitor]
    returns because the context is cancelled; [None]: still trying. *)
Fixpoint dial_loop (k : Connection) (attempts : list attempt)
  : option (Connection * bool) :=
  match attempts with
  | [] => None
  | a :: attempts' =>
      match Dial k (dial a) with
      | (k, None) => Some (k, true)
      | (k, Some _) =>
          if ctx_Done_first a then Some (k, false)
          else dial_loop k attempts'
      end
  end.

(** The createSecureChannel step of [monitor]: the old connection and
    channel are closed, [c.sechan] is set to nil, and [Dial] is tried until it
    succeeds. The result is the client and the next action, [None] when
    [monitor] returns (the deferred store of Closed has run). *)
Definition createSecureChannel_case (k : Connection) (attempts : list attempt)
  : option (Connection * option reconnectAction) :=
  let c := set_sechan None (client k) in
  let c := set_state Reconnecting c in
  match dial_loop (set_client c k) attempts with
  | None => None
  | Some (k, true) => Some (k, Some restoreSession)
  | Some (k, false) => Some (set_client (set_state Closed (client k)) k, None)
  end.

(** An attempt in which the server is reached and the channel is created but
    cannot be opened. *)
Definition Open_fails (a : attempt) : Prop :=
  exists cn sc e,
    uacp_Dial (dial a) = inl cn /\ NewSecureChannel (dial a) = inl sc /\
    Open (dial a) = Some e.

(** An attempt in which the server is not reached. *)
Definition unreachable (a : attempt) : Prop :=
  exists e, uacp_Dial (dial a) = inr e.

(** ** Routing publish responses *)

(** The value of a notification, [data.Value] of a [*ua.ExtensionObject]: one
    of the three notification kinds of Part 4, 7.20, or a value of another
    type, given by the name of its Go type. The payloads are only passed
    on. *)
Inductive NotificationValue :=
| DataChangeNotification (payload : bytes)
| EventNotificationList (payload : bytes)
| StatusChangeNotification (status : ua.StatusCode)
| other_value (go_type : string).

(** [ua.ExtensionObject]: [Value] is an interface, [None] is nil. *)
Record ExtensionObject := { ext_Value : option NotificationValue }.

(** [ua.NotificationMessage]: [NotificationData] is a slice of pointers. *)
Record NotificationMessage := {
  SequenceNumber : Z;
  NotificationData : list (option ExtensionObject)
}.

(** [ua.PublishResponse]: [NotificationMessage] is a pointer. *)
Record PublishResponse := {
  publish_SubscriptionID : Z;
  publish_NotificationMessage : option NotificationMessage
}.

(** [PublishNotificationData] *)
Record PublishNotificationData := {
  notif_SubscriptionID : Z;
  notif_Error : option error;
  notif_Value : option NotificationValue
}.

(** The [%T] of a notification value. *)
Definition go_type_name (v : NotificationValue) : string :=
  match v with
  | DataChangeNotification _ => "*ua.DataChangeNotification"
  | EventNotificationList _ => "*ua.EventNotificationList"
  | StatusChangeNotification _ => "*ua.StatusChangeNotification"
  | other_value t => t
  end.

(** The body of the loop over [NotificationData] in [notifySubscription]:
    what is passed to [sub.notify] for one item. *)
Definition notification_for (id : Z) (data : option ExtensionObject)
  : PublishNotificationData :=
  match data with
  | None | Some {| ext_Value := None |} =>
      {| notif_SubscriptionID := id;
         notif_Error := Some (errors_Errorf "missing NotificationData parameter");
         notif_Value := None |}
  | Some {| ext_Value := Some v |} =>
      match v with
      | DataChangeNotification _ | EventNotificationList _ | StatusChangeNotification _ =>
          {| notif_SubscriptionID := id; notif_Error := None; notif_Value := Some v |}
      | other_value _ =>
          {| notif_SubscriptionID := id;
             notif_Error :=
               Some (errors_Errorf ("unknown NotificationData parameter: "
                                    +:+ go_type_name v));
             notif_Value := None |}
      end
  end.

(** [notifySubscription]: the calls of [sub.notify], in order, each with the
    subscription it is made on. *)
Definition notifySubscription (c : Client) (response : PublishResponse)
  : list (Subscription * PublishNotificationData) :=
  match subs c !! publish_SubscriptionID response with
  | None => (* Unknown subscription *) []
  | Some sub =>
      match publish_NotificationMessage response with
      | None =>
          [ (sub, {| notif_SubscriptionID := publish_SubscriptionID response;
                     notif_Error := Some (errors_Errorf "empty NotificationMessage");
                     notif_Value := None |}) ]
      | Some msg =>
          (fun data => (sub, notification_for (publish_SubscriptionID response) data))
            <$> NotificationData msg
      end
  end.

(** [notifySubscriptionsOfError]: the subscriptions [notify] is called on,
    each in a goroutine of its own, with the data passed. A nil response or a
    response for subscription 0 goes to every registered subscription;
    otherwise the map built for the one id holds what [c.subs] has under it,
    the nil pointer ([None]) when the id is not registered. *)
Definition notifySubscriptionsOfError (c : Client) (res : option PublishResponse)
  (err : option error) : list (option Subscription * PublishNotificationData) :=
  let data := {| notif_SubscriptionID := 0; notif_Error := err; notif_Value := None |} in
  let subsToNotify :=
    match res with
    | Some r =>
        if decide (publish_SubscriptionID r <> 0)
        then [subs c !! publish_SubscriptionID r]
        else Some <$> (map_to_list (subs c)).*2
    | None => Some <$> (map_to_list (subs c)).*2
    end in
  (fun s => (s, data)) <$> subsToNotify.

(** A notification kind the client passes on. *)
Definition known_notification (v : NotificationValue) : Prop :=
  match v with other_value _ => False | _ => True end.

(** A request that went out through [Send]: with the authentication token of
    the client's active session (none without a session) and the configured
    request timeout. *)
Definition sent_in_session (c : Client) (s : sent_request) : Prop :=
  sent_authToken s
  = match session c with
    | Some sess => ua.AuthenticationToken (resp sess)
    | None => None
    end /\
  sent_timeout s = Some (uasc.RequestTimeout (cfg c)).

(** ** Sample data *)

Definition sample_params : SubscriptionParameters :=
  {| Interval := 100 * Millisecond; LifetimeCount := 10000;
     MaxKeepAliveCount := 3000; MaxNotificationsPerPublish := 10000;
     Priority := 0 |}.

(** A subscription with the given id whose last received message is [last]. *)
Definition sample_subscription (id last : Z) : Subscription :=
  {| SubscriptionID := id; RevisedPublishingInterval := 100 * Millisecond;
     RevisedLifetimeCount := 10000; RevisedMaxKeepAliveCount := 3000;
     Notifs := 1; params := sample_params; lastSequenceNumber := last |}.

(** The server has the next message. *)
Definition message_recovered : republish_step :=
  Republished (Some {| ua.Republish_ServiceResult := ua.StatusOK |}) None.

(** The server has no further message: the request fails with
    [StatusBadMessageNotAvailable]. *)
Definition no_more_messages : republish_step :=
  Republished None (Some (ua_StatusCode ua.StatusBadMessageNotAvailable)).

Definition example_config (auto : bool) : uasc.Config :=
  {| uasc.AutoReconnect := auto; uasc.Certificate := [];
     uasc.RequestTimeout := 10000 * Millisecond;
     uasc.ReconnectInterval := 5000 * Millisecond |}.

Definition example_sessionCfg : uasc.SessionConfig :=
  {| uasc.SessionName := ""; uasc.ClientDescription := None;
     uasc.SessionTimeout := 20 * 60 * 1000 * Millisecond;
     uasc.UserIdentityToken := None; uasc.AuthPolicyURI := "";
     uasc.LocaleIDs := [] |}.

(** A client that is connected: open channel, no session yet. *)
Definition connected_client (auto : bool) : Client :=
  {| endpointURL := "opc.tcp://localhost:4840"; cfg := example_config auto;
     sessionCfg := example_sessionCfg;
     sechan := Some {| uasc.ChannelID := 1 |}; session := None; subs := ∅;
     state := Connected |}.


(** A [CreateSessionResponse] of a server that offers anonymous access. *)
Definition sample_CreateSessionResponse : ua.CreateSessionResponse :=
  {| ua.AuthenticationToken := Some (ua.NumericNodeID 0 4711);
     ua.ServerNonce := [Byte.x01; Byte.x02];
     ua.ServerCertificate := [Byte.x0a];
     ua.ServerEndpoints :=
       [ {| ua.SecurityMode := ua.MessageSecurityModeNone;
            ua.SecurityPolicyURI := ua.SecurityPolicyURINone;
            ua.UserIdentityTokens :=
              [ {| ua.PolicyID := "anon"; ua.TokenType := ua.UserTokenTypeAnonymous |} ];
            ua.SecurityLevel := 0 |} ];
     ua.ServerSignature := {| ua.Algorithm := ""; ua.Signature := [] |} |}.

(** The server answers [CreateSession]; [verify] is the verdict on its
    signature. *)
Definition sample_CreateSession_env (verify : option error) : CreateSession_env :=
  {| rand_bytes := []; rand_err := None; UnixNano := 1;
     answer := send_delivers (CreateSessionResponse_ sample_CreateSessionResponse);
     VerifySessionSignature := fun _ _ _ => verify |}.

Definition sample_session : Session :=
  {| sess_cfg := ptr_sessionCfg; resp := sample_CreateSessionResponse;
     serverCertificate := [Byte.x0a]; serverNonce := [Byte.x01; Byte.x02] |}.


(** A connected client with an active session. *)
Definition client_in_session : Client :=
  set_session (Some sample_session) (connected_client true).


Definition sample_CallMethodRequest : ua.CallMethodRequest :=
  {| ua.ObjectID := Some (ua.StringNodeID 2 "main");
     ua.MethodID := Some (ua.StringNodeID 2 "even");
     ua.InputArguments := [ {| ua.variant_encoding := [Byte.x06; Byte.x2a] |} ] |}.

Definition sample_CallMethodResult : ua.CallMethodResult :=
  {| ua.StatusCode_ := ua.StatusOK; ua.InputArgumentResults := [ua.StatusOK];
     ua.OutputArguments := [ {| ua.variant_encoding := [Byte.x01; Byte.x01] |} ] |}.

Definition sample_CreateSubscriptionResponse (id : Z) : ua.CreateSubscriptionResponse :=
  {| ua.CreateSubscription_ServiceResult := ua.StatusOK;
     ua.CreatedSubscriptionID := id;
     ua.RevisedPublishingInterval := 100;
     ua.RevisedLifetimeCount := 10000;
     ua.RevisedMaxKeepAliveCount := 3000 |}.


(** A caller's heap: a ReadRequest at address 1 for two nodes, one with all
    defaults left open (address 2) and one filled in (address 3). *)
Definition sample_heap : heap.t :=
  <[1%positive := heap.obj_ReadRequest
      {| heap.Header := None; heap.MaxAge := 0x409f400000000000;
         heap.TimestampsToReturn := 2;
         heap.NodesToRead := [Some 2%positive; Some 3%positive] |}]>
  (<[2%positive := heap.obj_ReadValueID
      {| heap.NodeID := Some (ua.NumericNodeID 0 2256); heap.AttributeID := 0;
         heap.IndexRange := ""; heap.DataEncoding := None |}]>
  (<[3%positive := heap.obj_ReadValueID
      {| heap.NodeID := Some (ua.StringNodeID 2 "rw_int32"); heap.AttributeID := 4;
         heap.IndexRange := "0:1";
         heap.DataEncoding := Some {| ua.NamespaceIndex := 0; ua.Name := "Default Binary" |} |}]>
   ∅)).

Definition client_with_subscription : Client :=
  set_subs {[ 7 := sample_subscription 7 5 ]} client_in_session.


(** A client with two subscriptions, 7 and 8. *)
Definition client_with_two_subscriptions : Client :=
  set_subs (<[7 := sample_subscription 7 5]> {[ 8 := sample_subscription 8 0 ]})
    client_in_session.

(** Both subscriptions are transferred; after that the server rejects the
    republish of 7 and has nothing to retransmit for 8. *)
Definition partial_republish_failure : recovery_env :=
  {| transfer_answer :=
       send_delivers (TransferSubscriptionsResponse_
         {| ua.TransferResults :=
              [ {| ua.TransferStatusCode := ua.StatusOK;
                   ua.AvailableSequenceNumbers := [6; 7] |};
                {| ua.TransferStatusCode := ua.StatusOK;
                   ua.AvailableSequenceNumbers := [1; 2] |} ] |});
     republish_scripts := fun id =>
       if decide (id = 7)
       then [Republished None (Some (ua_StatusCode ua.StatusBadSubscriptionIDInvalid))]
       else [no_more_messages];
     restore_errors := fun _ => None |}.


(** Three endpoints of one server, in the order it advertises them. *)
Definition sample_unsecured_endpoint : ua.EndpointDescription :=
  {| ua.SecurityMode := ua.MessageSecurityModeNone;
     ua.SecurityPolicyURI := ua.SecurityPolicyURINone;
     ua.UserIdentityTokens :=
       [ {| ua.PolicyID := "user"; ua.TokenType := ua.UserTokenTypeUserName |};
         {| ua.PolicyID := "open"; ua.TokenType := ua.UserTokenTypeAnonymous |} ];
     ua.SecurityLevel := 0 |}.

Definition sample_secured_endpoints : list ua.EndpointDescription :=
  [ {| ua.SecurityMode := ua.MessageSecurityModeSign;
       ua.SecurityPolicyURI := "http://opcfoundation.org/UA/SecurityPolicy#Basic256Sha256";
       ua.UserIdentityTokens :=
         [ {| ua.PolicyID := "anon-signed"; ua.TokenType := ua.UserTokenTypeAnonymous |} ];
       ua.SecurityLevel := 2 |};
    {| ua.SecurityMode := ua.MessageSecurityModeSignAndEncrypt;
       ua.SecurityPolicyURI := "http://opcfoundation.org/UA/SecurityPolicy#Basic256Sha256";
       ua.UserIdentityTokens := [];
       ua.SecurityLevel := 3 |} ].

Definition sample_endpoints : list ua.EndpointDescription :=
  sample_secured_endpoints ++ [sample_unsecured_endpoint].


(** The server transfers the one subscription and has no notification
    queued for it. *)
Definition nothing_queued : ua.TransferSubscriptionsResponse :=
  {| ua.TransferResults :=
       [ {| ua.TransferStatusCode := ua.StatusOK;
            ua.AvailableSequenceNumbers := [] |} ] |}.

Definition transfer_with_nothing_queued : recovery_env :=
  {| transfer_answer := send_delivers (TransferSubscriptionsResponse_ nothing_queued);
     republish_scripts := fun _ => [no_more_messages];
     restore_errors := fun _ => None |}.

(** The server has lost subscription 7 and transfers subscription 8. *)
Definition one_lost_one_transferred : ua.TransferSubscriptionsResponse :=
  {| ua.TransferResults :=
       [ {| ua.TransferStatusCode := ua.StatusBadSubscriptionIDInvalid;
            ua.AvailableSequenceNumbers := [] |};
         {| ua.TransferStatusCode := ua.StatusOK;
            ua.AvailableSequenceNumbers := [1; 2] |} ] |}.


(** A request with a nil entry, at address 1 of the sample heap. *)
Definition request_with_nil_entry : heap.ReadRequest :=
  {| heap.Header := None; heap.MaxAge := 0; heap.TimestampsToReturn := 0;
     heap.NodesToRead := [Some 2%positive; None] |}.

Definition heap_with_nil_entry : heap.t :=
  <[1%positive := heap.obj_ReadRequest request_with_nil_entry]> sample_heap.


(** A client that has dialled and has a session, with its transport. *)
Definition connection_in_session : Connection :=
  {| client := client_in_session; conn := Some {| uacp.ConnID := 1 |};
     sessionOnce_done := true; sechanErr_closed := false |}.

(** The server accepts the connection and the channel is created, but
    opening it fails. *)
Definition Open_times_out : attempt :=
  {| dial := {| uacp_Dial := inl {| uacp.ConnID := 2 |};
                NewSecureChannel := inl {| uasc.ChannelID := 2 |};
                Open := Some (other_error "timeout") |};
     ctx_Done_first := false |}.

(** The server is back: everything succeeds. *)
Definition server_is_back : attempt :=
  {| dial := {| uacp_Dial := inl {| uacp.ConnID := 3 |};
                NewSecureChannel := inl {| uasc.ChannelID := 3 |};
                Open := None |};
     ctx_Done_first := false |}.

(** The server refuses, and then the context is cancelled. *)
Definition cancelled : attempt :=
  {| dial := {| uacp_Dial := inr (syscall_Errno ECONNREFUSED);
                NewSecureChannel := inr (other_error "unused");
                Open := None |};
     ctx_Done_first := true |}.


(** A publish response for subscription 7 with a data change, an item
    without value, a nil item and a value of an unknown type. *)
Definition sample_PublishResponse : PublishResponse :=
  {| publish_SubscriptionID := 7;
     publish_NotificationMessage :=
       Some {| SequenceNumber := 6;
               NotificationData :=
                 [ Some {| ext_Value := Some (DataChangeNotification [Byte.x2a]) |};
                   Some {| ext_Value := None |};
                   None;
                   Some {| ext_Value := Some (other_value "*ua.ServiceFault") |} ] |} |}.

(* ===================================================================== *)
(** * Properties *)
(* ===================================================================== *)

(** ** The supervisor's initial action *)

Lemma set_state_idem st c : set_state st (set_state st c) = set_state st c.
Proof. reflexivity. Qed.

Lemma monitor_select_recovers c err :
  uasc.AutoReconnect (cfg c) = true ->
  (err = Some io_EOF -> State c <> Closed) ->
  monitor_select c (sechanErr_receive err true)
  = monitor_recovers (set_state Disconnected c) (initial_action err).
Proof.
  intros Hauto Hopen. unfold monitor_select. cbn [negb orb].
  destruct (bool_decide (err = Some io_EOF)) eqn:Heof; cbn [andb].
  - apply bool_decide_eq_true in Heof.
    rewrite (bool_decide_eq_false_2 _ (Hopen Heof)).
    cbn. rewrite Hauto. reflexivity.
  - cbn. rewrite Hauto. reflexivity.
Qed.

(** C1. With auto-reconnect enabled, an error value received from the
    secure channel's error signal starts recovery with the action of the
    table: a uacp error with status BadSecureChannelIDInvalid gives
    createSecureChannel, BadSessionIDInvalid gives recreateSession,
    BadSubscriptionIDInvalid gives restoreSubscriptions, io.EOF while the
    client is not closed gives createSecureChannel, ECONNREFUSED gives
    abortReconnect, and every other error (the nil error included) gives
    createSecureChannel. *)
Theorem monitor_initial_action_table (c : Client) (err : option error) :
  uasc.AutoReconnect (cfg c) = true ->
  let starts_with a :=
    monitor_select c (sechanErr_receive err true)
    = monitor_recovers (set_state Disconnected c) a in
  (err = Some (uacp_Error ua.StatusBadSecureChannelIDInvalid) ->
     starts_with createSecureChannel) /\
  (err = Some (uacp_Error ua.StatusBadSessionIDInvalid) ->
     starts_with recreateSession) /\
  (err = Some (uacp_Error ua.StatusBadSubscriptionIDInvalid) ->
     starts_with restoreSubscriptions) /\
  (err = Some io_EOF -> State c <> Closed -> starts_with createSecureChannel) /\
  (err = Some (syscall_Errno ECONNREFUSED) -> starts_with abortReconnect) /\
  (err <> Some io_EOF ->
   err <> Some (syscall_Errno ECONNREFUSED) ->
   err <> Some (uacp_Error ua.StatusBadSecureChannelIDInvalid) ->
   err <> Some (uacp_Error ua.StatusBadSessionIDInvalid) ->
   err <> Some (uacp_Error ua.StatusBadSubscriptionIDInvalid) ->
   starts_with createSecureChannel).
Proof.
  intros Hauto starts_with. subst starts_with. cbv beta.
  repeat split.
  - intros ->. by rewrite monitor_select_recovers.
  - intros ->. by rewrite monitor_select_recovers.
  - intros ->. by rewrite monitor_select_recovers.
  - intros -> Hst. by rewrite monitor_select_recovers.
  - intros ->. by rewrite monitor_select_recovers.
  - intros Heof Hrefused _ Hsess Hsub.
    rewrite monitor_select_recovers by done. f_equal.
    destruct err as [[ | errno | code | | | | ] | ]; cbn; try reflexivity.
    + repeat case_decide; subst; try reflexivity; contradiction.
    + repeat case_decide; subst; try reflexivity; contradiction.
Qed.

Lemma monitor_initial_action_table_witness :
  uasc.AutoReconnect (cfg (connected_client true)) = true /\
  monitor_select (connected_client true)
    (sechanErr_receive (Some (uacp_Error ua.StatusBadSessionIDInvalid)) true)
  = monitor_recovers (set_state Disconnected (connected_client true)) recreateSession.
Proof.
  split; [reflexivity |].
  apply (monitor_initial_action_table (connected_client true)
           (Some (uacp_Error ua.StatusBadSessionIDInvalid)));
    reflexivity.
Defined.

(** ** Republishing *)

Lemma wrap32_succ_wrap32 n : wrap32 (wrap32 n + 1) = wrap32 (n + 1).
Proof. unfold wrap32. by rewrite Zplus_mod_idemp_l. Qed.

Lemma RepublishRequest_for_wrap32 sub n :
  RepublishRequest_for sub (wrap32 n) = RepublishRequest_for sub n.
Proof. unfold RepublishRequest_for. by rewrite wrap32_succ_wrap32. Qed.

Lemma republish_requests_congr sub n : forall a b,
  wrap32 a = wrap32 b -> republish_requests sub a n = republish_requests sub b n.
Proof.
  induction n as [| n IH]; intros a b Hab; [reflexivity |].
  assert (Hs : wrap32 (a + 1) = wrap32 (b + 1)).
  { rewrite <- (wrap32_succ_wrap32 a), <- (wrap32_succ_wrap32 b). by rewrite Hab. }
  cbn. f_equal.
  - unfold RepublishRequest_for. by rewrite Hs.
  - by apply IH.
Qed.

Lemma republish_requests_length sub last n :
  length (republish_requests sub last n) = n.
Proof. revert last. induction n as [| n IH]; intros last; cbn; [done | by rewrite IH]. Qed.

Lemma republish_requests_lookup sub n : forall last i,
  (i < n)%nat ->
  republish_requests sub last n !! i
  = Some {| ua.SubscriptionID := SubscriptionID sub;
            ua.RetransmitSequenceNumber := wrap32 (last + Z.of_nat i + 1) |}.
Proof.
  induction n as [| n IH]; intros last i Hi; [lia |].
  destruct i as [| i]; cbn.
  - unfold RepublishRequest_for. by rewrite Z.add_0_r.
  - rewrite IH by lia. do 3 f_equal. lia.
Qed.

Lemma republish_requests_snoc sub n : forall last,
  republish_requests sub last (S n)
  = republish_requests sub last n ++ [RepublishRequest_for sub (last + Z.of_nat n)].
Proof.
  induction n as [| n IH]; intros last.
  - cbn. by rewrite Z.add_0_r.
  - change (republish_requests sub last (S (S n)))
      with (RepublishRequest_for sub last :: republish_requests sub (last + 1) (S n)).
    rewrite (IH (last + 1)). cbn [app republish_requests].
    by replace (last + Z.of_nat (S n)) with (last + 1 + Z.of_nat n) by lia.
Qed.

(** The loop walks through a prefix of recovered messages and goes on with
    what follows, [seq] advanced by the length of the prefix. *)
Lemma republish_loop_recovers sub done : forall sn script,
  Forall (fun st => recovers st = true) done ->
  exists sn',
    wrap32 sn' = wrap32 (sn + Z.of_nat (length done)) /\
    republish_loop sub sn (done ++ script)
    = match republish_loop sub sn' script with
      | Some (e, reqs, sq) =>
          Some (e, republish_requests sub sn (length done) ++ reqs, sq)
      | None => None
      end.
Proof.
  induction done as [| st done IH]; intros sn script Hall.
  - exists sn. split; [cbn; by rewrite Z.add_0_r |].
    cbn. by destruct (republish_loop sub sn script) as [[[e reqs] sq] |].
  - apply Forall_cons in Hall as [Hst Hall].
    destruct st as [| [r |] [e |]]; try discriminate Hst.
    cbn in Hst. apply bool_decide_eq_true in Hst.
    destruct (IH (wrap32 (sn + 1)) script Hall) as (sn' & Hsn' & Heq).
    exists sn'. split.
    + rewrite Hsn'. cbn [length]. unfold wrap32.
      rewrite Zplus_mod_idemp_l. f_equal. lia.
    + cbn [app republish_loop]. rewrite Hst.
      rewrite decide_False by (intros H; by apply H).
      rewrite Heq.
      destruct (republish_loop sub sn' script) as [[[e reqs] sq] |]; [| done].
      cbn [length republish_requests app].
      rewrite (republish_requests_congr sub (length done) (wrap32 (sn + 1)) (sn + 1));
        [done |].
      unfold wrap32. apply Zmod_mod.
Qed.

(** C6. A run of the republish loop that recovers the messages of [done] and
    then meets its end issues requests numbered [last+1], [last+2], ... for the
    subscription, one per iteration. It ends with success (nil) when the next
    request fails with BadMessageNotAvailable, with the error when it fails
    with any other error or comes back with a status that is not OK, and with
    BadSessionClosed, no request issued in that iteration or after it, when
    the session is found closed. *)
Theorem sendRepublishRequests_protocol (sub : Subscription)
  (done rest : list republish_step) :
  Forall (fun st => recovers st = true) done ->
  let last := lastSequenceNumber sub in
  let n := length done in
  (forall res, exists sub',
     sendRepublishRequests sub
       (done ++ Republished res (Some (ua_StatusCode ua.StatusBadMessageNotAvailable)) :: rest)
     = Some (None, republish_requests sub last (S n), sub')) /\
  (forall res e, e <> ua_StatusCode ua.StatusBadMessageNotAvailable -> exists sub',
     sendRepublishRequests sub (done ++ Republished res (Some e) :: rest)
     = Some (Some e, republish_requests sub last (S n), sub')) /\
  (forall res status,
     status = match res with
              | Some r => ua.Republish_ServiceResult r
              | None => ua.StatusBad
              end ->
     status <> ua.StatusOK -> exists sub',
     sendRepublishRequests sub (done ++ Republished res None :: rest)
     = Some (Some (ua_StatusCode status), republish_requests sub last (S n), sub')) /\
  (exists sub',
     sendRepublishRequests sub (done ++ SessionClosed :: rest)
     = Some (Some (ua_StatusCode ua.StatusBadSessionClosed),
             republish_requests sub last n, sub')) /\
  (forall i, (i < S n)%nat ->
     republish_requests sub last (S n) !! i
     = Some {| ua.SubscriptionID := SubscriptionID sub;
               ua.RetransmitSequenceNumber := wrap32 (last + Z.of_nat i + 1) |}).
Proof.
  intros Hdone last n. subst last n.
  assert (Hrun : forall script, exists sn',
    wrap32 sn' = wrap32 (lastSequenceNumber sub + Z.of_nat (length done)) /\
    sendRepublishRequests sub (done ++ script)
    = match republish_loop sub sn' script with
      | Some (e, reqs, _) =>
          Some (e, republish_requests sub (lastSequenceNumber sub) (length done) ++ reqs,
                set_lastSequenceNumber (lastSequenceNumber sub) sub)
      | None => None
      end).
  { intros script.
    destruct (republish_loop_recovers sub done (lastSequenceNumber sub) script Hdone)
      as (sn' & Hsn' & Heq).
    exists sn'. split; [done |]. unfold sendRepublishRequests. rewrite Heq.
    by destruct (republish_loop sub sn' script) as [[[e reqs] sq] |]. }
  assert (Hreq : forall sn',
    wrap32 sn' = wrap32 (lastSequenceNumber sub + Z.of_nat (length done)) ->
    republish_requests sub (lastSequenceNumber sub) (length done)
      ++ [RepublishRequest_for sub sn']
    = republish_requests sub (lastSequenceNumber sub) (S (length done))).
  { intros sn' Hsn'. rewrite republish_requests_snoc. do 2 f_equal.
    rewrite <- RepublishRequest_for_wrap32, Hsn'. apply RepublishRequest_for_wrap32. }
  repeat split.
  - intros res. destruct (Hrun (Republished res
      (Some (ua_StatusCode ua.StatusBadMessageNotAvailable)) :: rest)) as (sn' & Hsn' & ->).
    eexists. cbn [republish_loop]. rewrite decide_True by done.
    by rewrite Hreq.
  - intros res e He. destruct (Hrun (Republished res (Some e) :: rest)) as (sn' & Hsn' & ->).
    eexists. cbn [republish_loop]. rewrite decide_False by done.
    by rewrite Hreq.
  - intros res status -> Hstatus.
    destruct (Hrun (Republished res None :: rest)) as (sn' & Hsn' & ->).
    eexists. cbn [republish_loop]. rewrite decide_True by done.
    by rewrite Hreq.
  - destruct (Hrun (SessionClosed :: rest)) as (sn' & Hsn' & ->).
    eexists. cbn [republish_loop]. by rewrite app_nil_r.
  - intros i Hi. by apply republish_requests_lookup.
Qed.

Lemma sendRepublishRequests_protocol_witness :
  Forall (fun st => recovers st = true) [message_recovered; message_recovered] /\
  exists sub',
    sendRepublishRequests (sample_subscription 7 5)
      ([message_recovered; message_recovered] ++ [SessionClosed])
    = Some (Some (ua_StatusCode ua.StatusBadSessionClosed),
            republish_requests (sample_subscription 7 5) 5 2, sub').
Proof.
  assert (H : Forall (fun st => recovers st = true)
                [message_recovered; message_recovered])
    by (repeat constructor).
  split; [exact H |].
  exact (proj1 (proj2 (proj2 (proj2
    (sendRepublishRequests_protocol (sample_subscription 7 5)
       [message_recovered; message_recovered] [] H))))).
Defined.

(** The value [sendRepublishRequests] leaves in [lastSequenceNumber] is the
    one it found. *)
Lemma sendRepublishRequests_lastSequenceNumber sub script err reqs sub' :
  sendRepublishRequests sub script = Some (err, reqs, sub') ->
  lastSequenceNumber sub' = lastSequenceNumber sub.
Proof.
  unfold sendRepublishRequests.
  destruct (republish_loop sub (lastSequenceNumber sub) script) as [[[e rs] sq] |];
    [| discriminate].
  intros [= _ _ <-]. reflexivity.
Qed.

(** C2. The run in which the server retransmits message 6 of a subscription
    whose last received message is 5 and then reports that no message is
    left: two requests are issued (for 6 and for 7), the call succeeds, one
    message was recovered, and [lastSequenceNumber] is 5 afterwards, not 6. *)
Theorem sendRepublishRequests_forgets_recovered :
  let sub := sample_subscription 7 5 in
  let script := [message_recovered; no_more_messages] in
  exists sub',
    sendRepublishRequests sub script
    = Some (None,
            [ {| ua.SubscriptionID := 7; ua.RetransmitSequenceNumber := 6 |};
              {| ua.SubscriptionID := 7; ua.RetransmitSequenceNumber := 7 |} ],
            sub') /\
    length (filter (fun st => recovers st = true) script) = 1%nat /\
    lastSequenceNumber sub' = 5 /\
    lastSequenceNumber sub' <> lastSequenceNumber sub + 1.
Proof.
  eexists. split; [vm_compute; reflexivity |].
  split; [vm_compute; reflexivity |].
  split; [reflexivity |]. cbn. lia.
Qed.

(** ** Sessions *)

(** C3. When the channel is open, the response is a CreateSessionResponse
    and the verification of the server signature fails, [CreateSession]
    returns no error and no session: the handler logs and returns before the
    session is built. *)
Theorem CreateSession_unverified_returns_nil (c : Client) (cfg_ptr : SessionConfigPtr)
  (env : CreateSession_env) (res : ua.CreateSessionResponse) (e : error) :
  sechan c <> None ->
  rand_err env = None ->
  answer env = send_delivers (CreateSessionResponse_ res) ->
  VerifySessionSignature env (ua.ServerCertificate res)
    (resize 32 Byte.x00 (rand_bytes env)) (ua.Signature (ua.ServerSignature res))
  = Some e ->
  ret_err (CreateSession c cfg_ptr env) = None /\
  ret (CreateSession c cfg_ptr env) = None.
Proof.
  intros Hchan Hrand Hans Hverify. unfold CreateSession.
  destruct (sechan c) as [ch |]; [| done].
  rewrite Hrand, Hans. cbn. rewrite Hverify. by cbn.
Qed.

Lemma CreateSession_unverified_returns_nil_witness :
  let c := connected_client true in
  let env := sample_CreateSession_env (Some (other_error "crypto/rsa: verification error")) in
  sechan c <> None /\
  ret_err (CreateSession c ptr_sessionCfg env) = None /\
  ret (CreateSession c ptr_sessionCfg env) = None.
Proof.
  split; [discriminate |].
  apply (CreateSession_unverified_returns_nil (connected_client true) ptr_sessionCfg
           (sample_CreateSession_env (Some (other_error "crypto/rsa: verification error")))
           sample_CreateSessionResponse
           (other_error "crypto/rsa: verification error"));
    [discriminate | reflexivity | reflexivity | reflexivity].
Defined.

(** When the signature verifies, the session holds the response with its
    authentication token, and the server's certificate and nonce. *)
Lemma CreateSession_verified_returns_session c cfg_ptr env res :
  sechan c <> None ->
  rand_err env = None ->
  answer env = send_delivers (CreateSessionResponse_ res) ->
  VerifySessionSignature env (ua.ServerCertificate res)
    (resize 32 Byte.x00 (rand_bytes env)) (ua.Signature (ua.ServerSignature res))
  = None ->
  ret_err (CreateSession c cfg_ptr env) = None /\
  ret (CreateSession c cfg_ptr env)
  = Some {| sess_cfg := cfg_ptr; resp := res;
            serverCertificate := ua.ServerCertificate res;
            serverNonce := ua.ServerNonce res |}.
Proof.
  intros Hchan Hrand Hans Hverify. unfold CreateSession.
  destruct (sechan c) as [ch |]; [| done].
  rewrite Hrand, Hans. cbn. rewrite Hverify. by cbn.
Qed.

(** C8 as the spec states it fails: with an empty session name and the clock
    at 1 the name sent is "gopcua-1", which does not start with "client-". *)
Lemma CreateSession_default_name_not_client :
  let c := connected_client true in
  let env := sample_CreateSession_env None in
  uasc.SessionName (deref_cfg c ptr_sessionCfg) = "" /\
  ~ exists req auth timeout suffix,
      handed (CreateSession c ptr_sessionCfg env)
      = [ {| sent_req := CreateSessionRequest_ req; sent_authToken := auth;
             sent_timeout := timeout |} ] /\
      ua.SessionName req = "client-" +:+ suffix.
Proof.
  split; [reflexivity |].
  intros (req & auth & timeout & suffix & Hsent & Hname).
  vm_compute in Hsent. injection Hsent as <- _ _.
  vm_compute in Hname. discriminate Hname.
Qed.

(** C8, amended. With an empty session name in the configuration, the name
    in the CreateSessionRequest is "gopcua-" followed by the decimal digits
    of [time.Now().UnixNano()]. *)
Theorem CreateSession_default_name (c : Client) (cfg_ptr : SessionConfigPtr)
  (env : CreateSession_env) :
  sechan c <> None ->
  rand_err env = None ->
  uasc.SessionName (deref_cfg c cfg_ptr) = "" ->
  exists req,
    handed (CreateSession c cfg_ptr env)
    = [ {| sent_req := CreateSessionRequest_ req; sent_authToken := None;
           sent_timeout := None |} ] /\
    ua.SessionName req = "gopcua-" +:+ pretty (UnixNano env).
Proof.
  intros Hchan Hrand Hname. unfold CreateSession.
  destruct (sechan c) as [ch |]; [| done].
  rewrite Hrand, Hname. rewrite decide_True by done.
  destruct (SendRequest _ _ _) as [[scfg s] err].
  eexists. split; reflexivity.
Qed.

Lemma CreateSession_default_name_witness :
  let c := connected_client true in
  let env := sample_CreateSession_env None in
  sechan c <> None /\
  exists req,
    handed (CreateSession c ptr_sessionCfg env)
    = [ {| sent_req := CreateSessionRequest_ req; sent_authToken := None;
           sent_timeout := None |} ] /\
    ua.SessionName req = "gopcua-1".
Proof.
  split; [discriminate |].
  apply (CreateSession_default_name (connected_client true) ptr_sessionCfg
           (sample_CreateSession_env None));
    [discriminate | reflexivity | reflexivity].
Defined.

(** A configured session name is sent as it is. *)
Lemma CreateSession_configured_name c cfg_ptr env :
  sechan c <> None ->
  rand_err env = None ->
  uasc.SessionName (deref_cfg c cfg_ptr) <> "" ->
  exists req,
    sent_req <$> handed (CreateSession c cfg_ptr env) = [CreateSessionRequest_ req] /\
    ua.SessionName req = uasc.SessionName (deref_cfg c cfg_ptr).
Proof.
  intros Hchan Hrand Hname. unfold CreateSession.
  destruct (sechan c) as [ch |]; [| done].
  rewrite Hrand. rewrite decide_False by done.
  destruct (SendRequest _ _ _) as [[scfg s] err].
  eexists. split; reflexivity.
Qed.




(** ** Call *)

Section Call.
Variables (c : Client) (ch : uasc.SecureChannel) (req : option ua.CallMethodRequest).
Hypothesis channel_open : sechan c = Some ch.

Let sent := [sent_by_Send c (CallRequest_ {| ua.MethodsToCall := [req] |})].

Lemma Call_send_fails e :
  Call c req (send_fails e) = Returns (mk_result None (Some e) c sent).
Proof. unfold Call, Send, sendWithTimeout. by rewrite channel_open. Qed.

Lemma Call_other_response v :
  TypeOf v <> T_CallResponse ->
  Call c req (send_delivers v)
  = Returns (mk_result None (Some (InvalidResponseTypeError (TypeOf v) T_CallResponse))
               c sent).
Proof.
  intros Hv. unfold Call, Send, sendWithTimeout. rewrite channel_open.
  by destruct v.
Qed.

Lemma Call_not_one_result res :
  length (ua.Results res) <> 1%nat ->
  Call c req (send_delivers (CallResponse_ res))
  = Returns (mk_result None (Some (ua_StatusCode ua.StatusBadUnknownResponse)) c sent).
Proof.
  intros Hlen. unfold Call, Send, sendWithTimeout. rewrite channel_open. cbn.
  by rewrite decide_True.
Qed.

Lemma Call_one_result res x :
  ua.Results res = [x] ->
  Call c req (send_delivers (CallResponse_ res))
  = Returns (mk_result x None c sent).
Proof.
  intros Hres. unfold Call, Send, sendWithTimeout. rewrite channel_open. cbn.
  rewrite Hres. cbn. by rewrite decide_False by (intros H; by apply H).
Qed.
End Call.

Lemma Call_not_connected c req o :
  sechan c = None ->
  Call c req o
  = Returns (mk_result None (Some (ua_StatusCode ua.StatusBadServerNotConnected)) c []).
Proof. intros Hch. unfold Call, Send, sendWithTimeout. by rewrite Hch. Qed.

(** C10. [Call] hands one CallRequest holding the method to [Send]. If the
    send fails (the client has no channel, the channel reports a failure, or
    the response is not a CallResponse) the error is returned with a nil
    result; if the CallResponse does not hold exactly one result,
    StatusBadUnknownResponse is returned with a nil result; otherwise the
    single result is returned without error. The client is left as it was. *)
Theorem Call_single_result (c : Client) (req : option ua.CallMethodRequest) :
  let sent := [sent_by_Send c (CallRequest_ {| ua.MethodsToCall := [req] |})] in
  (sechan c = None -> forall o,
     Call c req o
     = Returns (mk_result None (Some (ua_StatusCode ua.StatusBadServerNotConnected)) c [])) /\
  (sechan c <> None ->
     (forall e,
        Call c req (send_fails e) = Returns (mk_result None (Some e) c sent)) /\
     (forall v, TypeOf v <> T_CallResponse ->
        Call c req (send_delivers v)
        = Returns (mk_result None
                     (Some (InvalidResponseTypeError (TypeOf v) T_CallResponse)) c sent)) /\
     (forall res, length (ua.Results res) <> 1%nat ->
        Call c req (send_delivers (CallResponse_ res))
        = Returns (mk_result None (Some (ua_StatusCode ua.StatusBadUnknownResponse))
                     c sent)) /\
     (forall res x, ua.Results res = [x] ->
        Call c req (send_delivers (CallResponse_ res))
        = Returns (mk_result x None c sent))).
Proof.
  intros sent. split.
  - intros Hch o. by apply Call_not_connected.
  - intros Hch. destruct (sechan c) as [ch |] eqn:Hopen; [| done].
    repeat split.
    + intros e. by apply (Call_send_fails c ch).
    + intros v Hv. by apply (Call_other_response c ch).
    + intros res Hlen. by apply (Call_not_one_result c ch).
    + intros res x Hres. by apply (Call_one_result c ch).
Qed.

Lemma Call_single_result_witness :
  sechan client_in_session <> None /\
  Call client_in_session (Some sample_CallMethodRequest)
    (send_delivers (CallResponse_ {| ua.Results := [Some sample_CallMethodResult] |}))
  = Returns (mk_result (Some sample_CallMethodResult) None client_in_session
               [sent_by_Send client_in_session
                  (CallRequest_ {| ua.MethodsToCall := [Some sample_CallMethodRequest] |})]).
Proof.
  assert (H : sechan client_in_session <> None) by discriminate.
  split; [exact H |].
  exact (proj2 (proj2 (proj2 (proj2
    (Call_single_result client_in_session (Some sample_CallMethodRequest)) H)))
    {| ua.Results := [Some sample_CallMethodResult] |} (Some sample_CallMethodResult)
    eq_refl).
Defined.

(** ** The subscription registry *)

Lemma registry_ok_keyed (m : gmap Z Subscription) :
  m !! 0 = None ->
  (forall k sub, m !! k = Some sub -> SubscriptionID sub = k) ->
  registry_ok m.
Proof.
  intros H0 Hkey. repeat split; [done | done |].
  intros k1 k2 sub1 sub2 H1 H2 Hne Heq.
  apply Hne. by rewrite <- (Hkey _ _ H1), <- (Hkey _ _ H2).
Qed.

Lemma registry_ok_empty : registry_ok ∅.
Proof. apply registry_ok_keyed; [done |]. intros k sub. by rewrite lookup_empty. Qed.

Lemma registry_ok_insert (m : gmap Z Subscription) sub :
  registry_ok m -> SubscriptionID sub <> 0 ->
  registry_ok (<[SubscriptionID sub := sub]> m).
Proof.
  intros (H0 & Hkey & _) Hid. apply registry_ok_keyed.
  - by rewrite lookup_insert_ne.
  - intros k sub'. destruct (decide (SubscriptionID sub = k)) as [<- | Hne].
    + rewrite lookup_insert_eq. by intros [= <-].
    + rewrite lookup_insert_ne by done. apply Hkey.
Qed.

Lemma registry_ok_delete (m : gmap Z Subscription) id :
  registry_ok m -> registry_ok (delete id m).
Proof.
  intros (H0 & Hkey & _). apply registry_ok_keyed.
  - destruct (decide (id = 0)) as [-> | Hne].
    + apply lookup_delete_eq.
    + by rewrite lookup_delete_ne.
  - intros k sub. destruct (decide (id = k)) as [-> | Hne].
    + by rewrite lookup_delete_eq.
    + rewrite lookup_delete_ne by done. apply Hkey.
Qed.

(** What [Subscribe] does to the registry: nothing, or the insertion of a
    subscription under its own nonzero id, which was free. *)
Lemma Subscribe_registry c params notifyCh o r :
  Subscribe c params notifyCh o = Returns r ->
  subs (after r) = subs c \/
  exists sub, ret r = Some sub /\ ret_err r = None /\ SubscriptionID sub <> 0 /\
    subs c !! SubscriptionID sub = None /\
    subs (after r) = <[SubscriptionID sub := sub]> (subs c).
Proof.
  unfold Subscribe.
  destruct (Send c _ o assign_response None) as [[res [e |]] sent].
  { intros [= <-]. by left. }
  destruct res as [res |]; [| done].
  case_decide; [intros [= <-]; by left |].
  destruct (bool_decide _ || bool_decide _) eqn:Hcheck.
  { intros [= <-]. by left. }
  apply orb_false_iff in Hcheck as [Hid Hfree].
  apply bool_decide_eq_false in Hid. apply bool_decide_eq_false in Hfree.
  cbn in Hid, Hfree.
  assert (Hnone : subs c !! ua.CreatedSubscriptionID res = None).
  { destruct (subs c !! ua.CreatedSubscriptionID res) eqn:E; [| done].
    exfalso. by apply Hfree. }
  intros [= <-]. right. eexists. cbn. by repeat split.
Qed.

Lemma registerSubscription_registry c sub :
  subs (after (registerSubscription c sub)) = subs c \/
  (ret_err (registerSubscription c sub) = None /\ SubscriptionID sub <> 0 /\
   subs c !! SubscriptionID sub = None /\
   subs (after (registerSubscription c sub)) = <[SubscriptionID sub := sub]> (subs c)).
Proof.
  unfold registerSubscription. case_decide; [by left |].
  destruct (subs c !! SubscriptionID sub) eqn:Hlook; [by left |].
  by right.
Qed.

Lemma after_call_registry_ok c call :
  registry_ok (subs c) -> registry_ok (subs (after_call c call)).
Proof.
  intros Hok. destruct call as [params notifyCh o | sub | id]; cbn.
  - destruct (Subscribe c params notifyCh o) as [r |] eqn:Hsub; [| done].
    destruct (Subscribe_registry _ _ _ _ _ Hsub) as [-> | (sub & _ & _ & Hid & _ & ->)];
      [done | by apply registry_ok_insert].
  - destruct (registerSubscription_registry c sub) as [-> | (_ & Hid & _ & ->)];
      [done | by apply registry_ok_insert].
  - by apply registry_ok_delete.
Qed.

Lemma after_calls_registry_ok calls : forall c,
  registry_ok (subs c) -> registry_ok (subs (foldl after_call c calls)).
Proof.
  induction calls as [| call calls IH]; intros c Hok; [done |].
  cbn. apply IH. by apply after_call_registry_ok.
Qed.

Lemma after_call_keeps_entry c call k sub :
  (forall id, call <> call_forgetSubscription id) ->
  subs c !! k = Some sub ->
  subs (after_call c call) !! k = Some sub.
Proof.
  intros Hcall Hk. destruct call as [params notifyCh o | sub' | id]; cbn.
  - destruct (Subscribe c params notifyCh o) as [r |] eqn:Hsub; [| done].
    destruct (Subscribe_registry _ _ _ _ _ Hsub) as [-> | (s & _ & _ & _ & Hfree & ->)];
      [done |].
    rewrite lookup_insert_ne; [done | congruence].
  - destruct (registerSubscription_registry c sub') as [-> | (_ & _ & Hfree & ->)];
      [done |].
    rewrite lookup_insert_ne; [done | congruence].
  - by destruct (Hcall id).
Qed.

Lemma Subscribe_rejects c params notifyCh res :
  sechan c <> None ->
  ua.CreateSubscription_ServiceResult res = ua.StatusOK ->
  ua.CreatedSubscriptionID res = 0 \/ is_Some (subs c !! ua.CreatedSubscriptionID res) ->
  exists sent,
    Subscribe c params notifyCh (send_delivers (CreateSubscriptionResponse_ res))
    = Returns (mk_result None (Some (ua_StatusCode ua.StatusBadSubscriptionIDInvalid))
                 c sent).
Proof.
  intros Hch Hok Hbad. unfold Subscribe, Send, sendWithTimeout.
  destruct (sechan c) as [ch |]; [| done]. cbn.
  rewrite decide_False by (intros H; by apply H).
  eexists. destruct Hbad as [-> | [sub Hsub]].
  - by rewrite bool_decide_eq_true_2.
  - rewrite Hsub. rewrite (bool_decide_eq_true_2 (Some sub <> None)) by done.
    by rewrite orb_true_r.
Qed.

(** C5. Starting from a new client, after any sequence of [Subscribe],
    [registerSubscription] and [forgetSubscription] calls the registry has
    no entry with id 0 and no two entries with the same id. A
    CreateSubscription response with id 0 or with an id that is registered is
    rejected with StatusBadSubscriptionIDInvalid; [registerSubscription]
    rejects id 0 with that status and a registered id with an error; and
    neither call changes or replaces an entry that is in the registry. *)
Theorem registry_ids_unique_nonzero :
  (forall endpoint cfg0 sessionCfg0 calls,
     registry_ok (subs (foldl after_call (NewClient endpoint cfg0 sessionCfg0) calls))) /\
  (forall c calls,
     registry_ok (subs c) -> registry_ok (subs (foldl after_call c calls))) /\
  (forall c params notifyCh res,
     sechan c <> None ->
     ua.CreateSubscription_ServiceResult res = ua.StatusOK ->
     ua.CreatedSubscriptionID res = 0
     \/ is_Some (subs c !! ua.CreatedSubscriptionID res) ->
     exists sent,
       Subscribe c params notifyCh (send_delivers (CreateSubscriptionResponse_ res))
       = Returns (mk_result None (Some (ua_StatusCode ua.StatusBadSubscriptionIDInvalid))
                    c sent)) /\
  (forall c sub,
     SubscriptionID sub = 0 ->
     registerSubscription c sub
     = mk_result tt (Some (ua_StatusCode ua.StatusBadSubscriptionIDInvalid)) c []) /\
  (forall c sub,
     is_Some (subs c !! SubscriptionID sub) ->
     ret_err (registerSubscription c sub) <> None /\
     after (registerSubscription c sub) = c) /\
  (forall c call k sub,
     (forall id, call <> call_forgetSubscription id) ->
     subs c !! k = Some sub ->
     subs (after_call c call) !! k = Some sub).
Proof.
  split; [| split; [| split; [| split; [| split]]]].
  - intros endpoint cfg0 sessionCfg0 calls.
    apply after_calls_registry_ok, registry_ok_empty.
  - intros c calls. apply after_calls_registry_ok.
  - apply Subscribe_rejects.
  - intros c sub Hid. unfold registerSubscription. by rewrite decide_True.
  - intros c sub [s Hs]. unfold registerSubscription.
    case_decide; [done |]. by rewrite Hs.
  - apply after_call_keeps_entry.
Qed.

Lemma registry_ids_unique_nonzero_witness :
  sechan client_with_subscription <> None /\
  exists sent,
    Subscribe client_with_subscription None 2
      (send_delivers (CreateSubscriptionResponse_ (sample_CreateSubscriptionResponse 7)))
    = Returns (mk_result None (Some (ua_StatusCode ua.StatusBadSubscriptionIDInvalid))
                 client_with_subscription sent).
Proof.
  assert (H : sechan client_with_subscription <> None) by discriminate.
  split; [exact H |].
  refine (proj1 (proj2 (proj2 registry_ids_unique_nonzero))
            client_with_subscription None 2 (sample_CreateSubscriptionResponse 7)
            H eq_refl _).
  right. exists (sample_subscription 7 5). reflexivity.
Defined.

(** ** Read *)

Lemma alloc_fresh (h : heap.t) o l h' :
  heap.alloc h o = (l, h') -> h !! l = None /\ h' = <[l := o]> h.
Proof.
  unfold heap.alloc. intros [= <- <-]. split; [| done].
  apply not_elem_of_dom, is_fresh.
Qed.

Lemma alloc_subseteq (h : heap.t) o l h' :
  heap.alloc h o = (l, h') -> h ⊆ h' /\ h !! l = None /\ h' !! l = Some o.
Proof.
  intros Halloc. apply alloc_fresh in Halloc as [Hfresh ->].
  split; [by apply insert_subseteq |]. split; [done | apply lookup_insert_eq].
Qed.

Lemma load_ReadValueID_weaken (h h' : heap.t) p v :
  h ⊆ h' -> heap.load_ReadValueID h p = Some v -> heap.load_ReadValueID h' p = Some v.
Proof.
  intros Hsub. destruct p as [l |]; [| done]. cbn.
  destruct (h !! l) as [o |] eqn:Hl; [| done].
  by rewrite (lookup_weaken _ _ _ _ Hl Hsub).
Qed.

(** The loop of [Read] only allocates: the heap it ends with extends the
    one it started with, and entry [i] of the result is the address of a new
    object holding the defaulted copy of what entry [i] pointed to. *)
Lemma clone_ReadValueIDs_spec nodes : forall (h h' : heap.t) rvs,
  clone_ReadValueIDs h nodes = Returns (h', rvs) ->
  h ⊆ h' /\ length rvs = length nodes /\
  forall (i : nat) p v,
    nodes !! i = Some p -> heap.load_ReadValueID h p = Some v ->
    exists l, rvs !! i = Some (Some l) /\ h !! l = None /\
      h' !! l = Some (heap.obj_ReadValueID (fill_defaults v)).
Proof.
  induction nodes as [| rv nodes IH]; intros h h' rvs Hclone;
    cbn [clone_ReadValueIDs] in Hclone.
  - injection Hclone as <- <-. by repeat split.
  - destruct (heap.load_ReadValueID h rv) as [v0 |] eqn:Hrv; [| done].
    destruct (heap.alloc h _) as [rc h1] eqn:Halloc.
    apply alloc_subseteq in Halloc as (Hsub1 & Hfresh & Hrc).
    destruct (clone_ReadValueIDs h1 nodes) as [[h2 rvs'] |] eqn:Htl; [| done].
    injection Hclone as <- <-.
    destruct (IH _ _ _ Htl) as (Hsub2 & Hlen & Hentries).
    split; [by transitivity h1 |]. split; [cbn; by rewrite Hlen |].
    intros [| i] p v Hp Hv; cbn in Hp.
    + injection Hp as <-. rewrite Hrv in Hv. injection Hv as <-.
      exists rc. split; [done |]. split; [done |].
      by apply (lookup_weaken _ _ _ _ Hrc Hsub2).
    + destruct (Hentries i p v Hp (load_ReadValueID_weaken _ _ _ _ Hsub1 Hv))
        as (l & Hl & Hfresh' & Hl').
      exists l. split; [done |]. split; [| done].
      by apply (lookup_weaken_None _ _ _ Hfresh' Hsub1).
Qed.

(** The copy made by [Read] differs from the original only by the defaults. *)
Lemma fill_defaults_spec v : defaulted_copy v (fill_defaults v).
Proof.
  unfold fill_defaults, defaulted_copy.
  destruct v as [n a r [q |]]; cbn; case_decide; by cbn.
Qed.

Lemma clone_ReadValueIDs_returns nodes : forall (h : heap.t),
  Forall (fun p => is_Some (heap.load_ReadValueID h p)) nodes ->
  exists h' rvs, clone_ReadValueIDs h nodes = Returns (h', rvs).
Proof.
  induction nodes as [| rv nodes IH]; intros h Hall; cbn [clone_ReadValueIDs].
  - by eexists _, _.
  - apply Forall_cons in Hall as [[v Hv] Hall]. rewrite Hv.
    destruct (heap.alloc h _) as [rc h1] eqn:Halloc.
    apply alloc_subseteq in Halloc as (Hsub1 & _ & _).
    destruct (IH h1) as (h' & rvs & ->).
    + eapply Forall_impl; [exact Hall |]. intros p [w Hw].
      exists w. by apply (load_ReadValueID_weaken h).
    + by eexists _, _.
Qed.

(** C9. [Read] returns on every request that points to a ReadRequest with
    valid entries, and when it returns every object of the caller's heap is
    what it was, the ReadRequest and its ReadValueIDs among them: the request
    handed to [Send] is a new object with the caller's MaxAge and
    TimestampsToReturn, and its entries are new objects, entry by entry the
    defaulted copies of the caller's. *)
Theorem Read_clones_request (c : Client) (h : heap.t) (req : option loc)
  (o : send_outcome) :
  (valid_ReadRequest h req -> exists r h', Read c h req o = Returns (r, h')) /\
  (forall r h', Read c h req o = Returns (r, h') ->
     after r = c /\
     (forall l obj, h !! l = Some obj -> h' !! l = Some obj) /\
     exists orig,
       heap.load_ReadRequest h req = Some orig /\
       heap.load_ReadRequest h' req = Some orig /\
       (forall p v, p ∈ heap.NodesToRead orig ->
          heap.load_ReadValueID h p = Some v -> heap.load_ReadValueID h' p = Some v) /\
       (sechan c <> None ->
        exists l sent,
          handed r = [sent_by_Send c (ReadRequest_ l)] /\
          h !! l = None /\
          h' !! l = Some (heap.obj_ReadRequest sent) /\
          heap.MaxAge sent = heap.MaxAge orig /\
          heap.TimestampsToReturn sent = heap.TimestampsToReturn orig /\
          length (heap.NodesToRead sent) = length (heap.NodesToRead orig) /\
          forall (i : nat) p v,
            heap.NodesToRead orig !! i = Some p ->
            heap.load_ReadValueID h p = Some v ->
            exists l' rc,
              heap.NodesToRead sent !! i = Some (Some l') /\
              h !! l' = None /\
              h' !! l' = Some (heap.obj_ReadValueID rc) /\
              defaulted_copy v rc)).
Proof.
  split.
  - intros (orig & Horig & Hentries). unfold Read. rewrite Horig.
    destruct (clone_ReadValueIDs_returns _ h Hentries) as (h1 & rvs & ->).
    destruct (heap.alloc h1 _) as [l h2].
    destruct (Send c _ o assign_response None) as [[res err] sent].
    by eexists _, _.
  - intros r h'. unfold Read.
    destruct (heap.load_ReadRequest h req) as [orig |] eqn:Horig; [| done].
    destruct (clone_ReadValueIDs h (heap.NodesToRead orig)) as [[h1 rvs] |] eqn:Hclone;
      [| done].
    apply clone_ReadValueIDs_spec in Hclone as (Hsub1 & Hlen & Hentries).
    destruct (heap.alloc h1 _) as [l h2] eqn:Halloc.
    apply alloc_subseteq in Halloc as (Hsub2 & Hfresh & Hl).
    assert (Hsub : h ⊆ h2) by (by transitivity h1).
    unfold Send, sendWithTimeout.
    destruct (sechan c) as [ch |] eqn:Hch.
    + destruct (SendRequest o assign_response None) as [res err].
      intros [= <- <-]. cbn [after handed].
      split; [done |]. split; [intros l0 obj Hl0; by apply (lookup_weaken h) |].
      exists orig. split; [done |]. split.
      { destruct req as [lr |]; [| done]. cbn in Horig |- *.
        destruct (h !! lr) as [obj |] eqn:Hlr; [| done].
        by rewrite (lookup_weaken _ _ _ _ Hlr Hsub). }
      split; [intros p v _; by apply load_ReadValueID_weaken |].
      intros _. eexists l, _. split; [reflexivity |].
      split; [by apply (lookup_weaken_None _ _ _ Hfresh Hsub1) |].
      split; [exact Hl |]. cbn. repeat split; try done.
      intros i p v Hp Hv. destruct (Hentries i p v Hp Hv) as (l' & Hi & Hf & Hl').
      exists l', (fill_defaults v). split; [done |]. split; [done |].
      split; [by apply (lookup_weaken _ _ _ _ Hl' Hsub2) | apply fill_defaults_spec].
    + intros [= <- <-]. cbn [after handed].
      split; [done |]. split; [intros l0 obj Hl0; by apply (lookup_weaken h) |].
      exists orig. split; [done |]. split.
      { destruct req as [lr |]; [| done]. cbn in Horig |- *.
        destruct (h !! lr) as [obj |] eqn:Hlr; [| done].
        by rewrite (lookup_weaken _ _ _ _ Hlr Hsub). }
      split; [intros p v _; by apply load_ReadValueID_weaken | done].
Qed.

Lemma Read_clones_request_witness :
  valid_ReadRequest sample_heap (Some 1%positive) /\
  exists r h',
    Read client_in_session sample_heap (Some 1%positive)
      (send_delivers (ReadResponse_ {| ua.ReadResults := [ua.StatusOK; ua.StatusOK] |}))
    = Returns (r, h').
Proof.
  assert (H : valid_ReadRequest sample_heap (Some 1%positive)).
  { eexists. split; [reflexivity |]. repeat constructor; by eexists. }
  split; [exact H |].
  exact (proj1 (Read_clones_request client_in_session sample_heap (Some 1%positive)
    (send_delivers (ReadResponse_ {| ua.ReadResults := [ua.StatusOK; ua.StatusOK] |}))) H).
Defined.

(** On the sample heap the request sent is the new object at address 6, with
    the two copies at addresses 4 and 5; addresses 1 to 3 are untouched. *)
Example Read_sample :
  exists r h',
    Read client_in_session sample_heap (Some 1%positive)
      (send_delivers (ReadResponse_ {| ua.ReadResults := [ua.StatusOK; ua.StatusOK] |}))
    = Returns (r, h') /\
    sent_req <$> handed r = [ReadRequest_ 6%positive] /\
    h' !! 1%positive = sample_heap !! 1%positive /\
    h' !! 2%positive = sample_heap !! 2%positive /\
    h' !! 3%positive = sample_heap !! 3%positive /\
    h' !! 6%positive
    = Some (heap.obj_ReadRequest
              {| heap.Header := None; heap.MaxAge := 0x409f400000000000;
                 heap.TimestampsToReturn := 2;
                 heap.NodesToRead := [Some 4%positive; Some 5%positive] |}) /\
    h' !! 4%positive
    = Some (heap.obj_ReadValueID
              {| heap.NodeID := Some (ua.NumericNodeID 0 2256);
                 heap.AttributeID := 13; heap.IndexRange := "";
                 heap.DataEncoding := Some {| ua.NamespaceIndex := 0; ua.Name := "" |} |}).
Proof. eexists _, _. split; [vm_compute; reflexivity |]. by vm_compute. Qed.

(** ** The supervisor's restore set *)

Lemma set_lastSequenceNumber_same sub :
  set_lastSequenceNumber (lastSequenceNumber sub) sub = sub.
Proof. by destruct sub. Qed.

Lemma set_subs_same c : set_subs (subs c) c = c.
Proof. by destruct c. Qed.

(** A republish leaves the client as it found it. *)
Lemma republishSubscription_client c id script err c' reqs :
  republishSubscription c id script = Some (err, c', reqs) -> c' = c.
Proof.
  unfold republishSubscription.
  destruct (subs c !! id) as [sub |] eqn:Hsub; [| by intros [= _ <- _]].
  unfold sendRepublishRequests.
  destruct (republish_loop sub (lastSequenceNumber sub) script) as [[[e rs] sq] |];
    [| done].
  rewrite set_lastSequenceNumber_same, (insert_id _ _ _ Hsub), set_subs_same.
  destruct e as [[] |]; repeat case_decide; by intros [= _ <- _].
Qed.

Lemma republish_each_spec scripts ids : forall c acc c' out,
  republish_each c scripts ids acc = Some (c', out) ->
  c' = c /\
  out = acc ++ filter (fun id => republish_failed c scripts id = true) ids.
Proof.
  induction ids as [| id ids IH]; intros c acc c' out; cbn [republish_each].
  - intros [= <- <-]. by rewrite app_nil_r.
  - destruct (republishSubscription c id (scripts id)) as [[[err c1] reqs] |] eqn:Hrep;
      [| done].
    assert (c1 = c) as -> by (by eapply republishSubscription_client).
    assert (Hfailed : republish_failed c scripts id = match err with Some _ => true | None => false end).
    { unfold republish_failed. rewrite Hrep. by destruct err. }
    destruct err as [e |]; intros Hrest; apply IH in Hrest as [-> ->];
      (split; [done |]).
    + rewrite filter_cons_True by done. by rewrite <- app_assoc.
    + rewrite filter_cons_False; [done |]. by rewrite Hfailed.
Qed.

(** C7 as the spec states it fails: subscriptions 7 and 8 are both
    transferred, the republish of 7 fails and the republish of 8 succeeds;
    the restore set is [7], and republish target 8 is not in it. *)
Lemma restore_set_partial_failure :
  let c := client_with_two_subscriptions in
  let env := partial_republish_failure in
  subscriptionIDs c [7; 8] /\
  republish_failed c (republish_scripts env) 7 = true /\
  republish_failed c (republish_scripts env) 8 = false /\
  exists c' subsToRepublish subsToRestore,
    restore_set c [7; 8] env = Some (Returns (c', subsToRepublish, subsToRestore)) /\
    subsToRepublish = [7; 8] /\
    subsToRestore = [7] /\
    ~ (forall id, id ∈ subsToRepublish -> id ∈ subsToRestore).
Proof.
  split; [| split; [| split]].
  - unfold subscriptionIDs. vm_compute. done.
  - by vm_compute.
  - by vm_compute.
  - eexists _, _, _. split; [vm_compute; reflexivity |].
    split; [reflexivity |]. split; [reflexivity |].
    intros Hall. specialize (Hall 8). rewrite !elem_of_cons, elem_of_nil in Hall.
    destruct Hall as [? | []]; [by right; left | done].
Qed.

(** C7, amended. In the restoreSubscriptions case the restore set consists
    of what the transfer left in it (the subscriptions whose transfer result
    is BadSubscriptionIDInvalid, or all of them when the transfer request
    failed) followed by those republish targets whose republish returned an
    error, and by no other republish target. *)
Theorem restore_set_failed_only (c : Client) (subIDs : list Z) (env : recovery_env)
  (c' : Client) (subsToRepublish subsToRestore : list Z) :
  restore_set c subIDs env = Some (Returns (c', subsToRepublish, subsToRestore)) ->
  exists rejected,
    transfer_and_sort c subIDs (transfer_answer env)
    = Returns (subsToRepublish, rejected) /\
    subsToRestore
    = rejected
      ++ filter (fun id => republish_failed c (republish_scripts env) id = true)
           subsToRepublish /\
    forall id, id ∈ subsToRepublish ->
      republish_failed c (republish_scripts env) id = false ->
      id ∉ rejected -> id ∉ subsToRestore.
Proof.
  unfold restore_set.
  destruct (transfer_and_sort c subIDs (transfer_answer env))
    as [[toRepublish rejected] |]; [| done].
  destruct (republish_each c (republish_scripts env) toRepublish rejected)
    as [[c1 out] |] eqn:Heach; [| done].
  intros [= <- <- <-]. apply republish_each_spec in Heach as [_ ->].
  exists rejected. split; [done |]. split; [done |].
  intros id Hin Hok Hrej. rewrite elem_of_app, list_elem_of_filter.
  intros [? | [Hfail _]]; [done |]. by rewrite Hok in Hfail.
Qed.

Lemma restore_set_failed_only_witness :
  let c := client_with_two_subscriptions in
  let env := partial_republish_failure in
  restore_set c [7; 8] env = Some (Returns (c, [7; 8], [7])) /\
  exists rejected,
    transfer_and_sort c [7; 8] (transfer_answer env) = Returns ([7; 8], rejected) /\
    [7] = rejected
          ++ filter (fun id => republish_failed c (republish_scripts env) id = true)
               [7; 8] /\
    forall id, id ∈ [7; 8] ->
      republish_failed c (republish_scripts env) id = false ->
      id ∉ rejected -> id ∉ [7].
Proof.
  assert (H : restore_set client_with_two_subscriptions [7; 8] partial_republish_failure
              = Some (Returns (client_with_two_subscriptions, [7; 8], [7])))
    by (vm_compute; reflexivity).
  split; [exact H |].
  exact (restore_set_failed_only client_with_two_subscriptions [7; 8]
           partial_republish_failure client_with_two_subscriptions [7; 8] [7] H).
Defined.

(** ** Endpoint selection *)

#[local] Instance level_ge_total : Total level_ge.
Proof. intros a b. unfold level_ge. lia. Qed.

#[local] Instance level_ge_trans : Transitive level_ge.
Proof. intros a b c. unfold level_ge. lia. Qed.

Lemma sort_by_level_desc_sorted l :
  sort_Sort (sort_Reverse bySecurityLevel_Less) l (sort_by_level_desc l).
Proof.
  split; [apply merge_sort_Permutation |].
  unfold sort_by_level_desc.
  induction (StronglySorted_merge_sort level_ge l) as [| a l' _ IH Hall];
    constructor; [done |].
  eapply Forall_impl; [exact Hall |].
  intros b. unfold level_ge, sort_Reverse, bySecurityLevel_Less. lia.
Qed.

Section SelectEndpoint.
Variables (policy : string) (mode : ua.MessageSecurityMode).

(** The loop returns the first endpoint that fits. *)
Lemma first_matching_endpoint_Some l e :
  ~ (policy = "" /\ mode = ua.MessageSecurityModeInvalid) ->
  first_matching_endpoint policy mode l = Some e ->
  exists pre post, l = pre ++ e :: post /\
    endpoint_matches policy mode e /\
    Forall (fun x => ~ endpoint_matches policy mode x) pre.
Proof.
  intros Hcare. induction l as [| p l IH]; [done |]. cbn [first_matching_endpoint].
  destruct (decide (endpoint_matches policy mode p)) as [Hp | Hp].
  - intros Hres. exists [], l.
    assert (Some p = Some e) as Heq.
    { rewrite <- Hres. unfold endpoint_matches in Hp.
      repeat case_bool_decide; cbn [andb]; try done; exfalso; intuition congruence. }
    injection Heq as <-. split; [done |]. split; [done | constructor].
  - intros Hres.
    assert (first_matching_endpoint policy mode l = Some e) as Htl.
    { rewrite <- Hres. unfold endpoint_matches in Hp.
      repeat case_bool_decide; cbn [andb]; try done; exfalso; intuition congruence. }
    destruct (IH Htl) as (pre & post & -> & Hm & Hpre).
    exists (p :: pre), post. split; [done |]. split; [done |]. by constructor.
Qed.

Lemma first_matching_endpoint_None l :
  ~ (policy = "" /\ mode = ua.MessageSecurityModeInvalid) ->
  first_matching_endpoint policy mode l = None ->
  Forall (fun x => ~ endpoint_matches policy mode x) l.
Proof.
  intros Hcare. induction l as [| p l IH]; [constructor |].
  cbn [first_matching_endpoint]. intros Hres.
  destruct (decide (endpoint_matches policy mode p)) as [Hp | Hp].
  - exfalso. unfold endpoint_matches in Hp. revert Hres.
    repeat case_bool_decide; cbn [andb]; try done; intuition congruence.
  - constructor; [done |]. apply IH. rewrite <- Hres.
    unfold endpoint_matches in Hp.
    repeat case_bool_decide; cbn [andb]; try done; exfalso; intuition congruence.
Qed.
End SelectEndpoint.

Lemma StronglySorted_app_cons {A} (R : A -> A -> Prop) pre x post :
  StronglySorted R (pre ++ x :: post) -> Forall (R x) post.
Proof.
  induction pre as [| y pre IH]; cbn; intros Hs.
  - by apply StronglySorted_inv in Hs as [_ ?].
  - apply StronglySorted_inv in Hs as [? _]. by apply IH.
Qed.

(** X1. [SelectEndpoint] returns an endpoint of the given slice that fits
    the (formatted) policy and the mode, and none of the fitting endpoints
    has a higher security level, whatever order the unstable sort leaves
    endpoints of equal level in. *)
Theorem SelectEndpoint_highest_match
  (FormatSecurityPolicyURI : string -> string)
  (sort : list ua.EndpointDescription -> list ua.EndpointDescription)
  (endpoints : list ua.EndpointDescription) (policy : string)
  (mode : ua.MessageSecurityMode) (e : ua.EndpointDescription) :
  sort_Sort (sort_Reverse bySecurityLevel_Less) endpoints (sort endpoints) ->
  (SelectEndpoint FormatSecurityPolicyURI sort endpoints policy mode).1 = Some e ->
  e ∈ endpoints /\
  endpoint_matches (FormatSecurityPolicyURI policy) mode e /\
  forall e', e' ∈ endpoints ->
    endpoint_matches (FormatSecurityPolicyURI policy) mode e' ->
    ua.SecurityLevel e' <= ua.SecurityLevel e.
Proof.
  intros [Hperm Hsorted]. unfold SelectEndpoint.
  case_decide as Hlen; [done |]. cbn zeta.
  set (pol := FormatSecurityPolicyURI policy). intros Hres.
  assert (Hsplit : exists pre post, sort endpoints = pre ++ e :: post /\
      endpoint_matches pol mode e /\
      Forall (fun x => ~ endpoint_matches pol mode x) pre).
  { destruct (bool_decide (pol = "") && bool_decide (mode = ua.MessageSecurityModeInvalid))
      eqn:Hcare; cbn [fst] in Hres.
    - apply andb_prop in Hcare as [Hp Hm].
      apply bool_decide_eq_true in Hp. apply bool_decide_eq_true in Hm.
      destruct (sort endpoints) as [| x l]; [done |]. injection Hres as <-.
      exists [], l. split; [done |]. split; [| constructor].
      unfold endpoint_matches. by split; left.
    - apply (first_matching_endpoint_Some pol mode); [| done]. intros [Hp Hm].
      by rewrite !bool_decide_eq_true_2 in Hcare. }
  destruct Hsplit as (pre & post & Hsorted_eq & Hm & Hpre).
  rewrite Hsorted_eq in Hperm, Hsorted.
  split; [| split; [done |]].
  - rewrite <- Hperm. set_solver.
  - intros e' Hin He'. rewrite <- Hperm in Hin.
    apply elem_of_app in Hin as [Hin | Hin].
    + rewrite Forall_forall in Hpre. by destruct (Hpre e' Hin).
    + apply elem_of_cons in Hin as [-> | Hin]; [lia |].
      apply StronglySorted_app_cons in Hsorted. rewrite Forall_forall in Hsorted.
      specialize (Hsorted e' Hin). unfold sort_Reverse, bySecurityLevel_Less in Hsorted.
      lia.
Qed.

Lemma SelectEndpoint_highest_match_witness :
  let e := {| ua.SecurityMode := ua.MessageSecurityModeSignAndEncrypt;
              ua.SecurityPolicyURI :=
                "http://opcfoundation.org/UA/SecurityPolicy#Basic256Sha256";
              ua.UserIdentityTokens := []; ua.SecurityLevel := 3 |} in
  sort_Sort (sort_Reverse bySecurityLevel_Less) sample_endpoints
    (sort_by_level_desc sample_endpoints) /\
  e ∈ sample_endpoints /\
  endpoint_matches "http://opcfoundation.org/UA/SecurityPolicy#Basic256Sha256"
    ua.MessageSecurityModeInvalid e /\
  forall e', e' ∈ sample_endpoints ->
    endpoint_matches "http://opcfoundation.org/UA/SecurityPolicy#Basic256Sha256"
      ua.MessageSecurityModeInvalid e' ->
    ua.SecurityLevel e' <= ua.SecurityLevel e.
Proof.
  split; [apply sort_by_level_desc_sorted |].
  apply (SelectEndpoint_highest_match (fun p => p) sort_by_level_desc sample_endpoints
           "http://opcfoundation.org/UA/SecurityPolicy#Basic256Sha256"
           ua.MessageSecurityModeInvalid);
    [apply sort_by_level_desc_sorted | reflexivity].
Defined.

(** X2. [SelectEndpoint] returns nil exactly when no endpoint of the slice
    fits the (formatted) policy and the mode; in particular on an empty
    slice. *)
Theorem SelectEndpoint_nil_iff_no_match
  (FormatSecurityPolicyURI : string -> string)
  (sort : list ua.EndpointDescription -> list ua.EndpointDescription)
  (endpoints : list ua.EndpointDescription) (policy : string)
  (mode : ua.MessageSecurityMode) :
  sort_Sort (sort_Reverse bySecurityLevel_Less) endpoints (sort endpoints) ->
  (SelectEndpoint FormatSecurityPolicyURI sort endpoints policy mode).1 = None <->
  forall e, e ∈ endpoints -> ~ endpoint_matches (FormatSecurityPolicyURI policy) mode e.
Proof.
  intros [Hperm _]. unfold SelectEndpoint.
  case_decide as Hlen.
  { destruct endpoints; [| done]. cbn. split; [| done]. intros _ e He.
    by apply elem_of_nil in He. }
  cbn zeta. set (pol := FormatSecurityPolicyURI policy).
  destruct (bool_decide (pol = "") && bool_decide (mode = ua.MessageSecurityModeInvalid))
    eqn:Hcare; cbn [fst].
  - apply andb_prop in Hcare as [Hp Hm].
    apply bool_decide_eq_true in Hp. apply bool_decide_eq_true in Hm.
    destruct (sort endpoints) as [| x l] eqn:Hsort.
    + apply Permutation_nil_l in Hperm. by subst.
    + split; [done |]. intros Hnone. exfalso. apply (Hnone x).
      * rewrite <- Hperm. set_solver.
      * unfold endpoint_matches. by split; left.
  - assert (Hcare' : ~ (pol = "" /\ mode = ua.MessageSecurityModeInvalid)).
    { intros [Hp Hm]. by rewrite !bool_decide_eq_true_2 in Hcare. }
    split.
    + intros Hnone e He. rewrite <- Hperm in He.
      apply (first_matching_endpoint_None pol mode) in Hnone; [| done].
      rewrite Forall_forall in Hnone. by apply Hnone.
    + intros Hnone.
      destruct (first_matching_endpoint pol mode (sort endpoints)) as [e |] eqn:Hres;
        [| done].
      apply (first_matching_endpoint_Some pol mode) in Hres
        as (pre & post & Heq & Hm & _); [| done].
      exfalso. apply (Hnone e); [| done]. rewrite <- Hperm, Heq. set_solver.
Qed.

Lemma SelectEndpoint_nil_iff_no_match_witness :
  sort_Sort (sort_Reverse bySecurityLevel_Less) sample_endpoints
    (sort_by_level_desc sample_endpoints) /\
  ((SelectEndpoint (fun p => p) sort_by_level_desc sample_endpoints
      "http://opcfoundation.org/UA/SecurityPolicy#Basic128Rsa15"
      ua.MessageSecurityModeSign).1 = None <->
   forall e, e ∈ sample_endpoints ->
     ~ endpoint_matches "http://opcfoundation.org/UA/SecurityPolicy#Basic128Rsa15"
         ua.MessageSecurityModeSign e).
Proof.
  split; [apply sort_by_level_desc_sorted |].
  apply (SelectEndpoint_nil_iff_no_match (fun p => p) sort_by_level_desc sample_endpoints
           "http://opcfoundation.org/UA/SecurityPolicy#Basic128Rsa15"
           ua.MessageSecurityModeSign).
  apply sort_by_level_desc_sorted.
Defined.

(** ** The anonymous policy id *)

Lemma anonymous_token_policy_first tpre t tpost :
  Forall (fun x => ~ is_anonymous x) tpre -> is_anonymous t ->
  anonymous_token_policy (tpre ++ t :: tpost) = Some (ua.PolicyID t).
Proof.
  intros Hpre Ht. induction Hpre as [| x tpre Hx _ IH]; cbn.
  - by rewrite decide_True.
  - by rewrite decide_False.
Qed.

Lemma anonymous_token_policy_none tokens :
  Forall (fun x => ~ is_anonymous x) tokens -> anonymous_token_policy tokens = None.
Proof.
  intros Hall. induction Hall as [| x tokens Hx _ IH]; [done |].
  cbn. by rewrite decide_False.
Qed.

Lemma anonymousPolicyID_skip e endpoints :
  (unsecured e -> Forall (fun x => ~ is_anonymous x) (ua.UserIdentityTokens e)) ->
  anonymousPolicyID (e :: endpoints) = anonymousPolicyID endpoints.
Proof.
  intros He. cbn [anonymousPolicyID].
  destruct (bool_decide (ua.SecurityMode e <> ua.MessageSecurityModeNone)) eqn:Hmode;
    [done |].
  destruct (bool_decide (ua.SecurityPolicyURI e <> ua.SecurityPolicyURINone)) eqn:Huri;
    [done |].
  cbn [orb]. apply bool_decide_eq_false in Hmode, Huri.
  rewrite anonymous_token_policy_none; [done |]. apply He. split.
  - by destruct (decide (ua.SecurityMode e = ua.MessageSecurityModeNone)).
  - by destruct (decide (ua.SecurityPolicyURI e = ua.SecurityPolicyURINone)).
Qed.

(** X3. [anonymousPolicyID] answers with the policy id of the first
    anonymous token policy of the first unsecured endpoint (mode None, policy
    None) that has one; anonymous token policies of secured endpoints are not
    looked at. When no unsecured endpoint has an anonymous token policy the
    answer is "Anonymous". *)
Theorem anonymousPolicyID_first_unsecured :
  (forall pre e post tpre t tpost,
     Forall (fun e' => unsecured e' ->
               Forall (fun x => ~ is_anonymous x) (ua.UserIdentityTokens e')) pre ->
     unsecured e ->
     ua.UserIdentityTokens e = tpre ++ t :: tpost ->
     Forall (fun x => ~ is_anonymous x) tpre ->
     is_anonymous t ->
     anonymousPolicyID (pre ++ e :: post) = ua.PolicyID t) /\
  (forall endpoints,
     Forall (fun e' => unsecured e' ->
               Forall (fun x => ~ is_anonymous x) (ua.UserIdentityTokens e')) endpoints ->
     anonymousPolicyID endpoints = "Anonymous").
Proof.
  split.
  - intros pre e post tpre t tpost Hpre [Hmode Huri] Htokens Htpre Ht.
    induction Hpre as [| e' pre He' _ IH]; cbn [app].
    + cbn [anonymousPolicyID].
      rewrite bool_decide_eq_false_2 by (intros H; by apply H).
      rewrite bool_decide_eq_false_2 by (intros H; by apply H).
      cbn [orb]. rewrite Htokens. by rewrite anonymous_token_policy_first.
    + by rewrite anonymousPolicyID_skip.
  - intros endpoints Hall. induction Hall as [| e endpoints He _ IH]; [done |].
    by rewrite anonymousPolicyID_skip.
Qed.

Lemma anonymousPolicyID_first_unsecured_witness :
  anonymousPolicyID sample_endpoints = "open".
Proof.
  refine (proj1 anonymousPolicyID_first_unsecured
            sample_secured_endpoints sample_unsecured_endpoint []
            [ {| ua.PolicyID := "user"; ua.TokenType := ua.UserTokenTypeUserName |} ]
            {| ua.PolicyID := "open"; ua.TokenType := ua.UserTokenTypeAnonymous |} []
            _ _ eq_refl _ eq_refl).
  - repeat (apply Forall_cons; split; [intros [Hmode _]; discriminate Hmode |]).
    constructor.
  - by split.
  - repeat constructor. discriminate.
Defined.

(** ** More on sessions *)

(** X4. [CreateSession] does not associate anything with the client: the
    active session, the channel, the registry, the state, the endpoint and
    the channel configuration are what they were, whatever the server
    answers. The session configuration is what it was whenever a user
    identity token is configured or no session is returned. *)
Theorem CreateSession_frame (c : Client) (cfg_ptr : SessionConfigPtr)
  (env : CreateSession_env) :
  let r := CreateSession c cfg_ptr env in
  session (after r) = session c /\
  sechan (after r) = sechan c /\
  subs (after r) = subs c /\
  state (after r) = state c /\
  endpointURL (after r) = endpointURL c /\
  cfg (after r) = cfg c /\
  (uasc.UserIdentityToken (sessionCfg c) <> None \/ ret r = None ->
   sessionCfg (after r) = sessionCfg c).
Proof.
  unfold CreateSession.
  destruct (sechan c) as [ch |] eqn:Hch; [| by cbn; rewrite ?Hch].
  destruct (rand_err env) as [e |]; [by cbn; rewrite ?Hch |].
  destruct (SendRequest _ _ _) as [[scfg s] err] eqn:Hsend. cbn.
  repeat split; try done. intros Hkeep.
  destruct (answer env) as [e | v]; cbn in Hsend; [by injection Hsend as <- _ _ |].
  unfold CreateSession_handler in Hsend.
  destruct (safeAssign v None) as [[res |] [e |]]; try by injection Hsend as <- _ _.
  destruct (VerifySessionSignature env _ _ _); [by injection Hsend as <- _ _ |].
  destruct (uasc.UserIdentityToken (sessionCfg c)) eqn:Htok;
    [by injection Hsend as <- _ _ |].
  injection Hsend as <- <- _. by destruct Hkeep.
Qed.

(** X5. The request [CreateSession] hands to the channel, once random bytes
    are there: one CreateSessionRequest without authentication token, even
    when the client has an active session, with a 32-byte client nonce, the
    client's endpoint URL and certificate, and the session timeout in
    milliseconds. *)
Theorem CreateSession_request (c : Client) (cfg_ptr : SessionConfigPtr)
  (env : CreateSession_env) :
  sechan c <> None ->
  rand_err env = None ->
  exists req,
    handed (CreateSession c cfg_ptr env)
    = [ {| sent_req := CreateSessionRequest_ req; sent_authToken := None;
           sent_timeout := None |} ] /\
    length (ua.ClientNonce req) = 32%nat /\
    ua.EndpointURL req = endpointURL c /\
    ua.ClientCertificate req = uasc.Certificate (cfg c) /\
    ua.ClientDescription req = uasc.ClientDescription (deref_cfg c cfg_ptr) /\
    ua.RequestedSessionTimeout req
    = Z.quot (uasc.SessionTimeout (deref_cfg c cfg_ptr)) 1000000.
Proof.
  intros Hch Hrand. unfold CreateSession.
  destruct (sechan c) as [ch |]; [| done]. rewrite Hrand.
  destruct (SendRequest _ _ _) as [[scfg s] err].
  eexists. split; [reflexivity |]. cbn. by rewrite length_resize.
Qed.

Lemma CreateSession_request_witness :
  sechan client_in_session <> None /\
  exists req,
    handed (CreateSession client_in_session ptr_sessionCfg (sample_CreateSession_env None))
    = [ {| sent_req := CreateSessionRequest_ req; sent_authToken := None;
           sent_timeout := None |} ] /\
    length (ua.ClientNonce req) = 32%nat /\
    ua.EndpointURL req = "opc.tcp://localhost:4840" /\
    ua.ClientCertificate req = [] /\
    ua.ClientDescription req = None /\
    ua.RequestedSessionTimeout req = 1200000.
Proof.
  assert (H : sechan client_in_session <> None) by discriminate.
  split; [exact H |].
  exact (CreateSession_request client_in_session ptr_sessionCfg
           (sample_CreateSession_env None) H eq_refl).
Defined.

(** X6. [CreateSession] returns a session only together with a nil error,
    and only when the server's answer is a CreateSessionResponse whose
    signature verifies against its server certificate and the nonce that was
    sent; the session then holds that response, its server certificate and its
    server nonce. Whenever an error is returned, no session is. *)
Theorem CreateSession_session_is_verified (c : Client) (cfg_ptr : SessionConfigPtr)
  (env : CreateSession_env) :
  let r := CreateSession c cfg_ptr env in
  (forall s, ret r = Some s ->
     ret_err r = None /\
     rand_err env = None /\
     answer env = send_delivers (CreateSessionResponse_ (resp s)) /\
     VerifySessionSignature env (ua.ServerCertificate (resp s))
       (resize 32 Byte.x00 (rand_bytes env))
       (ua.Signature (ua.ServerSignature (resp s))) = None /\
     sess_cfg s = cfg_ptr /\
     serverCertificate s = ua.ServerCertificate (resp s) /\
     serverNonce s = ua.ServerNonce (resp s)) /\
  (ret_err r <> None -> ret r = None).
Proof.
  unfold CreateSession.
  destruct (sechan c) as [ch |]; [| by split].
  destruct (rand_err env) as [e |]; [by split |].
  destruct (SendRequest _ _ _) as [[scfg s] err] eqn:Hsend. cbn.
  destruct (answer env) as [e | v]; cbn in Hsend;
    [injection Hsend as <- <- <-; by split |].
  unfold CreateSession_handler in Hsend.
  destruct v; cbn in Hsend; try (injection Hsend as <- <- <-; by split).
  destruct (VerifySessionSignature env _ _ _) eqn:Hverify;
    [injection Hsend as <- <- <-; by split |].
  injection Hsend as _ <- <-. split; [| done].
  intros s [= <-]. by cbn.
Qed.


(** ** More on the subscription registry *)

(** X8. When the server answers a CreateSubscription request with status OK
    and an id that is neither 0 nor registered, [Subscribe] returns a
    subscription with that id, the revised values of the response, the
    caller's channel and sequence number 0, and registers exactly it: a
    lookup of the id gives the returned subscription and every other entry is
    what it was. *)
Theorem Subscribe_registers (c : Client) (params : option SubscriptionParameters)
  (notifyCh : Z) (res : ua.CreateSubscriptionResponse) :
  sechan c <> None ->
  ua.CreateSubscription_ServiceResult res = ua.StatusOK ->
  ua.CreatedSubscriptionID res <> 0 ->
  subs c !! ua.CreatedSubscriptionID res = None ->
  exists r sub,
    Subscribe c params notifyCh (send_delivers (CreateSubscriptionResponse_ res))
    = Returns r /\
    ret r = Some sub /\ ret_err r = None /\
    SubscriptionID sub = ua.CreatedSubscriptionID res /\
    RevisedLifetimeCount sub = ua.RevisedLifetimeCount res /\
    RevisedMaxKeepAliveCount sub = ua.RevisedMaxKeepAliveCount res /\
    Notifs sub = notifyCh /\
    lastSequenceNumber sub = 0 /\
    subs (after r) !! SubscriptionID sub = Some sub /\
    (forall k, k <> SubscriptionID sub -> subs (after r) !! k = subs c !! k) /\
    session (after r) = session c /\ state (after r) = state c.
Proof.
  intros Hch Hok Hid Hfree. unfold Subscribe, Send, sendWithTimeout.
  destruct (sechan c) as [ch |]; [| done]. cbn.
  rewrite decide_False by (intros H; by apply H).
  rewrite bool_decide_eq_false_2 by done. rewrite Hfree.
  rewrite bool_decide_eq_false_2 by (intros H; by apply H). cbn [orb].
  eexists _, _. split; [reflexivity |]. cbn.
  repeat split; try done.
  - apply lookup_insert_eq.
  - intros k Hk. by rewrite lookup_insert_ne.
Qed.

Lemma Subscribe_registers_witness :
  sechan client_with_subscription <> None /\
  exists r sub,
    Subscribe client_with_subscription None 2
      (send_delivers (CreateSubscriptionResponse_ (sample_CreateSubscriptionResponse 9)))
    = Returns r /\
    ret r = Some sub /\ ret_err r = None /\
    SubscriptionID sub = 9 /\
    RevisedLifetimeCount sub = 10000 /\
    RevisedMaxKeepAliveCount sub = 3000 /\
    Notifs sub = 2 /\
    lastSequenceNumber sub = 0 /\
    subs (after r) !! SubscriptionID sub = Some sub /\
    (forall k, k <> SubscriptionID sub ->
       subs (after r) !! k = subs client_with_subscription !! k) /\
    session (after r) = session client_with_subscription /\
    state (after r) = state client_with_subscription.
Proof.
  assert (H : sechan client_with_subscription <> None) by discriminate.
  split; [exact H |].
  refine (Subscribe_registers client_with_subscription None 2
            (sample_CreateSubscriptionResponse 9) H eq_refl _ eq_refl).
  discriminate.
Defined.

(** X9. A [Subscribe] that succeeds followed by [forgetSubscription] of the
    returned id gives back the client as it was before. *)
Theorem Subscribe_then_forget (c : Client) (params : option SubscriptionParameters)
  (notifyCh : Z) (o : send_outcome) (r : result (option Subscription))
  (sub : Subscription) :
  Subscribe c params notifyCh o = Returns r ->
  ret r = Some sub ->
  forgetSubscription (after r) (SubscriptionID sub) = c.
Proof.
  intros Hsub Hret.
  destruct (Subscribe_registry _ _ _ _ _ Hsub)
    as [Hsame | (sub' & Hret' & _ & _ & Hfree & Hins)].
  - exfalso. revert Hsub Hret. unfold Subscribe.
    destruct (Send c _ o assign_response None) as [[res [e |]] sent].
    { by intros [= <-]. }
    destruct res as [res |]; [| done].
    case_decide; [by intros [= <-] |].
    destruct (bool_decide _ || bool_decide _) eqn:Hcheck; [by intros [= <-] |].
    intros [= <-] _. cbn in Hsame.
    apply orb_false_elim in Hcheck as [_ Hfree].
    apply bool_decide_eq_false in Hfree. apply Hfree. cbn.
    rewrite <- Hsame. by rewrite lookup_insert_eq.
  - rewrite Hret in Hret'. injection Hret' as <-.
    unfold forgetSubscription. rewrite Hins, (delete_insert_id _ _ _ Hfree).
    revert Hsub. unfold Subscribe.
    destruct (Send c _ o assign_response None) as [[res [e |]] sent].
    { by intros [= <-]. }
    destruct res as [res |]; [| done].
    case_decide; [intros [= <-]; by destruct c |].
    destruct (bool_decide _ || bool_decide _); intros [= <-]; by destruct c.
Qed.

Lemma Subscribe_then_forget_witness :
  exists r sub,
    Subscribe client_with_subscription None 2
      (send_delivers (CreateSubscriptionResponse_ (sample_CreateSubscriptionResponse 9)))
    = Returns r /\
    ret r = Some sub /\
    forgetSubscription (after r) (SubscriptionID sub) = client_with_subscription.
Proof.
  eexists _, _. split; [reflexivity |]. split; [reflexivity |].
  apply (Subscribe_then_forget client_with_subscription None 2
           (send_delivers (CreateSubscriptionResponse_
                             (sample_CreateSubscriptionResponse 9))));
    reflexivity.
Defined.

(** X10. A [Subscribe] that returns an error returns no subscription and
    leaves the client, the registry included, as it was; this covers a failed
    send, a response of another type, a service result that is not OK, and a
    rejected id. *)
Theorem Subscribe_error_changes_nothing (c : Client)
  (params : option SubscriptionParameters) (notifyCh : Z) (o : send_outcome)
  (r : result (option Subscription)) :
  Subscribe c params notifyCh o = Returns r ->
  ret_err r <> None ->
  ret r = None /\ after r = c.
Proof.
  unfold Subscribe.
  destruct (Send c _ o assign_response None) as [[res [e |]] sent].
  { by intros [= <-]. }
  destruct res as [res |]; [| done].
  case_decide; [by intros [= <-] |].
  destruct (bool_decide _ || bool_decide _); by intros [= <-].
Qed.

Lemma Subscribe_error_changes_nothing_witness :
  exists r,
    Subscribe client_with_subscription None 2 (send_fails (other_error "timeout"))
    = Returns r /\
    ret_err r <> None /\ ret r = None /\ after r = client_with_subscription.
Proof.
  eexists. split; [reflexivity |]. split; [discriminate |].
  apply (Subscribe_error_changes_nothing client_with_subscription None 2
           (send_fails (other_error "timeout")));
    [reflexivity | discriminate].
Defined.

(** ** More on republishing and restoring *)



Lemma republishSubscription_registered c id sub script :
  subs c !! id = Some sub ->
  republishSubscription c id script
  = match sendRepublishRequests sub script with
    | None => None
    | Some (err, reqs, _) =>
        match err with
        | None => Some (None, c, reqs)
        | Some (ua_StatusCode status) =>
            if decide (status = ua.StatusBadSubscriptionIDInvalid)
            then Some (Some (errors_Errorf
                               ("republish failed since subscription "
                                +:+ pretty (SubscriptionID sub) +:+ " is invalid")),
                       c, reqs)
            else Some (None, c, reqs)
        | Some e => Some (Some e, c, reqs)
        end
    end.
Proof.
  intros Hsub. unfold republishSubscription. rewrite Hsub.
  unfold sendRepublishRequests.
  destruct (republish_loop sub (lastSequenceNumber sub) script) as [[[e rs] sq] |];
    [| done].
  rewrite set_lastSequenceNumber_same, (insert_id _ _ _ Hsub), set_subs_same.
  destruct e as [[] |]; try done. repeat case_decide; try done.
  subst. discriminate.
Qed.

Lemma sendRepublishRequests_after_recovered sub done script :
  Forall (fun st => recovers st = true) done ->
  exists sn',
    sendRepublishRequests sub (done ++ script)
    = match republish_loop sub sn' script with
      | Some (e, reqs, _) =>
          Some (e, republish_requests sub (lastSequenceNumber sub) (length done) ++ reqs,
                set_lastSequenceNumber (lastSequenceNumber sub) sub)
      | None => None
      end.
Proof.
  intros Hdone.
  destruct (republish_loop_recovers sub done (lastSequenceNumber sub) script Hdone)
    as (sn' & _ & Heq).
  exists sn'. unfold sendRepublishRequests. rewrite Heq.
  by destruct (republish_loop sub sn' script) as [[[e reqs] sq] |].
Qed.

(** X12. What the supervisor learns from the republish of a registered
    subscription, after any number of recovered messages: a session found
    closed and a request failing with any status code other than
    BadSubscriptionIDInvalid (BadMessageNotAvailable, BadSessionIDInvalid, a
    timeout status, ...) are reported as success; BadSubscriptionIDInvalid and
    errors that are not status codes are reported as failure. In every case
    the client, the registry included, is left as it was. *)
Theorem republishSubscription_reports (c : Client) (id : Z) (sub : Subscription)
  (done rest : list republish_step) :
  subs c !! id = Some sub ->
  Forall (fun st => recovers st = true) done ->
  (exists reqs,
     republishSubscription c id (done ++ SessionClosed :: rest) = Some (None, c, reqs)) /\
  (forall res status, status <> ua.StatusBadSubscriptionIDInvalid -> exists reqs,
     republishSubscription c id
       (done ++ Republished res (Some (ua_StatusCode status)) :: rest)
     = Some (None, c, reqs)) /\
  (forall res, exists reqs msg,
     republishSubscription c id
       (done ++ Republished res (Some (ua_StatusCode ua.StatusBadSubscriptionIDInvalid))
             :: rest)
     = Some (Some (errors_Errorf msg), c, reqs)) /\
  (forall res e, (forall status, e <> ua_StatusCode status) -> exists reqs,
     republishSubscription c id (done ++ Republished res (Some e) :: rest)
     = Some (Some e, c, reqs)).
Proof.
  intros Hsub Hdone. repeat split.
  - rewrite (republishSubscription_registered _ _ _ _ Hsub).
    destruct (sendRepublishRequests_after_recovered sub done (SessionClosed :: rest) Hdone)
      as [sn' ->].
    cbn. rewrite decide_False by discriminate. by eexists.
  - intros res status Hstatus.
    rewrite (republishSubscription_registered _ _ _ _ Hsub).
    destruct (sendRepublishRequests_after_recovered sub done
                (Republished res (Some (ua_StatusCode status)) :: rest) Hdone)
      as [sn' ->].
    cbn. case_decide as Hbmna.
    + by eexists.
    + rewrite decide_False by done. by eexists.
  - intros res.
    rewrite (republishSubscription_registered _ _ _ _ Hsub).
    destruct (sendRepublishRequests_after_recovered sub done
                (Republished res (Some (ua_StatusCode ua.StatusBadSubscriptionIDInvalid))
                   :: rest) Hdone)
      as [sn' ->].
    cbn. rewrite decide_False by discriminate. rewrite decide_True by done.
    by eexists _, _.
  - intros res e He.
    rewrite (republishSubscription_registered _ _ _ _ Hsub).
    destruct (sendRepublishRequests_after_recovered sub done
                (Republished res (Some e) :: rest) Hdone)
      as [sn' ->].
    cbn. rewrite decide_False by apply He.
    destruct e; try by eexists. by destruct (He code).
Qed.

Lemma republishSubscription_reports_witness :
  let c := client_with_subscription in
  subs c !! 7 = Some (sample_subscription 7 5) /\
  Forall (fun st => recovers st = true) [message_recovered] /\
  exists reqs,
    republishSubscription c 7 ([message_recovered] ++ SessionClosed :: [])
    = Some (None, c, reqs).
Proof.
  assert (H : Forall (fun st => recovers st = true) [message_recovered])
    by (repeat constructor).
  split; [reflexivity |]. split; [exact H |].
  exact (proj1 (republishSubscription_reports client_with_subscription 7
                  (sample_subscription 7 5) [message_recovered] [] eq_refl H)).
Defined.

(** ** More on the supervisor *)

Lemma sort_transfer_results_panics subIDs results : forall i toRepublish toRestore k r,
  results !! k = Some r ->
  (length subIDs <= i + k)%nat \/
  (~ transfer_rejected r /\ (length (ua.AvailableSequenceNumbers r) <= i + k)%nat) ->
  sort_transfer_results subIDs results i toRepublish toRestore = Panics.
Proof.
  unfold transfer_rejected.
  induction results as [| r0 results IH]; intros i toRepublish toRestore k r Hk Hbad;
    [done |].
  cbn [sort_transfer_results]. destruct k as [| k]; cbn in Hk.
  - injection Hk as ->. rewrite Nat.add_0_r in Hbad. case_decide as Hst.
    + destruct Hbad as [Hlen | [Hne _]]; [| done].
      by rewrite (lookup_ge_None_2 _ _ Hlen).
    + destruct Hbad as [Hlen | [_ Hlen]].
      * by rewrite (lookup_ge_None_2 _ _ Hlen).
      * rewrite (lookup_ge_None_2 _ _ Hlen). by destruct (subIDs !! i).
  - assert (Hbad' : (length subIDs <= S i + k)%nat \/
      (~ ua.TransferStatusCode r = ua.StatusBadSubscriptionIDInvalid /\
       (length (ua.AvailableSequenceNumbers r) <= S i + k)%nat)).
    { by replace (S i + k)%nat with (i + S k)%nat by lia. }
    case_decide as Hst.
    + destruct (subIDs !! i); [| done]. by eapply IH.
    + destruct (subIDs !! i); [| done].
      destruct (ua.AvailableSequenceNumbers r0 !! i); [| done]. by eapply IH.
Qed.

(** X13. The restoreSubscriptions step of the supervisor panics (index out
    of range) when the transfer request succeeds and the result at some
    position [k] does not ask for recreation but lists no more than [k]
    available sequence numbers (for the first subscription: none), or when
    there are more results than subscription ids. *)
Theorem restoreSubscriptions_case_panics (c : Client) (subIDs : list Z)
  (env : recovery_env) (res : ua.TransferSubscriptionsResponse) (k : nat)
  (r : ua.TransferResult) :
  sechan c <> None ->
  transfer_answer env = send_delivers (TransferSubscriptionsResponse_ res) ->
  ua.TransferResults res !! k = Some r ->
  (length subIDs <= k)%nat \/
  (~ transfer_rejected r /\ (length (ua.AvailableSequenceNumbers r) <= k)%nat) ->
  restoreSubscriptions_case c subIDs env = Some Panics.
Proof.
  intros Hch Hans Hk Hbad.
  unfold restoreSubscriptions_case, restore_set, transfer_and_sort,
    transferSubscriptions, Send, sendWithTimeout.
  destruct (sechan c) as [ch |]; [| done]. rewrite Hans. cbn.
  by rewrite (sort_transfer_results_panics _ _ 0 [] [] k r Hk).
Qed.

Lemma restoreSubscriptions_case_panics_witness :
  sechan client_with_subscription <> None /\
  restoreSubscriptions_case client_with_subscription [7] transfer_with_nothing_queued
  = Some Panics.
Proof.
  assert (H : sechan client_with_subscription <> None) by discriminate.
  split; [exact H |].
  refine (restoreSubscriptions_case_panics client_with_subscription [7]
            transfer_with_nothing_queued nothing_queued 0%nat
            {| ua.TransferStatusCode := ua.StatusOK;
               ua.AvailableSequenceNumbers := [] |}
            H eq_refl eq_refl _).
  right. split; [discriminate | reflexivity].
Defined.

Lemma sort_transfer_results_partition subIDs results :
  forall i toRepublish toRestore toRepublish' toRestore',
  sort_transfer_results subIDs results i toRepublish toRestore
  = Returns (toRepublish', toRestore') ->
  (length results <= length (drop i subIDs))%nat /\
  toRepublish'
  = toRepublish
    ++ (filter (fun p => ~ transfer_rejected p.2) (zip (drop i subIDs) results)).*1 /\
  toRestore'
  = toRestore
    ++ (filter (fun p => transfer_rejected p.2) (zip (drop i subIDs) results)).*1.
Proof.
  unfold transfer_rejected.
  induction results as [| r results IH];
    intros i toRepublish toRestore toRepublish' toRestore';
    cbn [sort_transfer_results].
  - intros [= <- <-]. rewrite zip_with_nil_r. cbn.
    rewrite !app_nil_r. split; [lia | done].
  - destruct (subIDs !! i) as [id |] eqn:Hid;
      [| by case_decide; [| destruct (_ !! _)]].
    rewrite (drop_S _ _ _ Hid). cbn [zip_with length].
    case_decide as Hst.
    + intros Hrec. apply IH in Hrec as (Hlen & -> & ->).
      split; [lia |].
      rewrite filter_cons_False by (cbn; intros H; by apply H).
      rewrite filter_cons_True by done. cbn. by rewrite <- app_assoc.
    + destruct (ua.AvailableSequenceNumbers r !! i); [| done].
      intros Hrec. apply IH in Hrec as (Hlen & -> & ->).
      split; [lia |].
      rewrite filter_cons_True by done.
      rewrite filter_cons_False by done. cbn. by rewrite <- app_assoc.
Qed.

(** X14. What the transfer leaves for the republish and the restore of the
    supervisor. When the transfer request fails (no channel, a failure of the
    channel, a response of another type), every subscription is put in the
    restore set and none is republished. When it succeeds without panic, the
    subscriptions are split by their results, in order: those whose result is
    BadSubscriptionIDInvalid go to the restore set, all others to the
    republish list, and subscriptions beyond the last result go to neither. *)
Theorem transfer_and_sort_split (c : Client) (subIDs : list Z) (o : send_outcome) :
  (sechan c = None \/ (forall res, o <> send_delivers (TransferSubscriptionsResponse_ res)) ->
   transfer_and_sort c subIDs o = Returns ([], subIDs)) /\
  (forall res subsToRepublish subsToRestore,
     sechan c <> None ->
     o = send_delivers (TransferSubscriptionsResponse_ res) ->
     transfer_and_sort c subIDs o = Returns (subsToRepublish, subsToRestore) ->
     (length (ua.TransferResults res) <= length subIDs)%nat /\
     subsToRepublish
     = (filter (fun p => ~ transfer_rejected p.2)
          (zip subIDs (ua.TransferResults res))).*1 /\
     subsToRestore
     = (filter (fun p => transfer_rejected p.2)
          (zip subIDs (ua.TransferResults res))).*1).
Proof.
  unfold transfer_and_sort, transferSubscriptions, Send, sendWithTimeout. split.
  - intros [Hch | Hother]; [by rewrite Hch |].
    destruct (sechan c) as [ch |]; [| done].
    destruct o as [e | v]; [done |].
    destruct v; try done. by destruct (Hother r).
  - intros res toRepublish toRestore Hch -> Hsort.
    destruct (sechan c) as [ch |]; [| done]. cbn in Hsort.
    apply sort_transfer_results_partition in Hsort as (Hlen & -> & ->).
    by rewrite drop_0 in *.
Qed.

Lemma transfer_and_sort_split_witness :
  let c := client_with_two_subscriptions in
  let o := send_delivers (TransferSubscriptionsResponse_ one_lost_one_transferred) in
  sechan c <> None /\
  transfer_and_sort c [7; 8] o = Returns ([8], [7]) /\
  (length (ua.TransferResults one_lost_one_transferred) <= length [7; 8])%nat /\
  [8] = (filter (fun p => ~ transfer_rejected p.2)
           (zip [7; 8] (ua.TransferResults one_lost_one_transferred))).*1 /\
  [7] = (filter (fun p => transfer_rejected p.2)
           (zip [7; 8] (ua.TransferResults one_lost_one_transferred))).*1.
Proof.
  assert (H : sechan client_with_two_subscriptions <> None) by discriminate.
  split; [exact H |].
  assert (E : transfer_and_sort client_with_two_subscriptions [7; 8]
                (send_delivers (TransferSubscriptionsResponse_ one_lost_one_transferred))
              = Returns ([8], [7])) by reflexivity.
  split; [exact E |].
  exact (proj2 (transfer_and_sort_split client_with_two_subscriptions [7; 8]
                  (send_delivers (TransferSubscriptionsResponse_ one_lost_one_transferred)))
           one_lost_one_transferred [8] [7] H eq_refl E).
Defined.






(** X17. Without auto-reconnect the supervisor never recovers: whatever it
    receives, [monitor] returns and leaves the state Closed. With
    auto-reconnect it returns on a cancelled context, on a closed error
    channel and on io.EOF in state Closed; in every other case it enters
    recovery with the state Disconnected and one of the actions
    createSecureChannel, recreateSession, restoreSubscriptions or
    abortReconnect. It never touches the session, the channel pointer or the
    registry on the way. *)
Theorem monitor_select_outcomes (c : Client) (ev : select_event) :
  (uasc.AutoReconnect (cfg c) = false ->
   monitor_select c ev = monitor_returns (set_state Closed c)) /\
  (forall c', monitor_select c ev = monitor_returns c' ->
     c' = set_state Closed c /\
     (uasc.AutoReconnect (cfg c) = false \/ ev = ctx_Done \/
      (exists err, ev = sechanErr_receive err false) \/
      (ev = sechanErr_receive (Some io_EOF) true /\ state c = Closed))) /\
  (forall c' action, monitor_select c ev = monitor_recovers c' action ->
     uasc.AutoReconnect (cfg c) = true /\
     c' = set_state Disconnected c /\
     (action = createSecureChannel \/ action = recreateSession \/
      action = restoreSubscriptions \/ action = abortReconnect)).
Proof.
  split; [| split].
  - intros Hauto. unfold monitor_select. destruct ev as [| err ok]; [done |].
    destruct (negb ok || _); [done |]. cbn. by rewrite Hauto.
  - intros c'. unfold monitor_select. destruct ev as [| err ok].
    { intros [= <-]. split; [done |]. by right; left. }
    destruct ok; cbn [negb orb].
    + destruct (bool_decide (err = Some io_EOF) && bool_decide (State c = Closed))
        eqn:Hclean.
      * apply andb_prop in Hclean as [Heof Hst].
        apply bool_decide_eq_true in Heof, Hst. subst err.
        intros [= <-]. split; [done |]. by right; right; right.
      * cbn. destruct (uasc.AutoReconnect (cfg c)) eqn:Hauto; cbn; [done |].
        intros [= <-]. split; [done |]. by left.
    + intros [= <-]. split; [done |]. right; right; left. by eexists.
  - intros c' action. unfold monitor_select. destruct ev as [| err ok]; [done |].
    destruct ok; cbn [negb orb]; [| done].
    destruct (bool_decide (err = Some io_EOF) && bool_decide (State c = Closed));
      [done |].
    cbn. destruct (uasc.AutoReconnect (cfg c)) eqn:Hauto; cbn; [| done].
    intros [= <- <-]. split; [done |]. split; [done |].
    unfold initial_action. destruct err as [[] |]; repeat case_decide; tauto.
Qed.

(** ** More on Read *)

Lemma clone_ReadValueIDs_nil_entry nodes : forall (h : heap.t),
  None ∈ nodes -> clone_ReadValueIDs h nodes = Panics.
Proof.
  induction nodes as [| rv nodes IH]; intros h Hin; [by apply elem_of_nil in Hin |].
  cbn [clone_ReadValueIDs]. apply elem_of_cons in Hin as [<- | Hin]; [done |].
  destruct (heap.load_ReadValueID h rv); [| done].
  destruct (heap.alloc h _) as [rc h1]. by rewrite IH.
Qed.

(** X18. [Read] panics on a nil request and on a request with a nil entry
    among its [NodesToRead], before anything is handed to the channel; a
    request without entries is sent as it is, with an empty list. *)
Theorem Read_nil_panics (c : Client) (h : heap.t) (o : send_outcome) :
  Read c h None o = Panics /\
  (forall l r, h !! l = Some (heap.obj_ReadRequest r) ->
     None ∈ heap.NodesToRead r ->
     Read c h (Some l) o = Panics) /\
  (forall l r, h !! l = Some (heap.obj_ReadRequest r) ->
     heap.NodesToRead r = [] ->
     sechan c <> None ->
     exists res l' h',
       Read c h (Some l) o = Returns (res, h') /\
       handed res = [sent_by_Send c (ReadRequest_ l')] /\
       h !! l' = None /\
       h' !! l'
       = Some (heap.obj_ReadRequest
                 {| heap.Header := None; heap.MaxAge := heap.MaxAge r;
                    heap.TimestampsToReturn := heap.TimestampsToReturn r;
                    heap.NodesToRead := [] |})).
Proof.
  split; [done |]. split.
  - intros l r Hl Hnil. unfold Read. cbn. rewrite Hl.
    by rewrite clone_ReadValueIDs_nil_entry.
  - intros l r Hl Hempty Hch. unfold Read. cbn [heap.load_ReadRequest].
    rewrite Hl, Hempty. cbn [clone_ReadValueIDs].
    destruct (heap.alloc h _) as [l' h'] eqn:Halloc.
    apply alloc_subseteq in Halloc as (_ & Hfresh & Hl').
    unfold Send, sendWithTimeout.
    destruct (sechan c) as [ch |]; [| done].
    destruct (SendRequest o assign_response None) as [res err].
    by eexists _, l', h'.
Qed.

Lemma Read_nil_panics_witness :
  Read client_in_session heap_with_nil_entry (Some 1%positive)
    (send_delivers (ReadResponse_ {| ua.ReadResults := [] |})) = Panics.
Proof.
  refine (proj1 (proj2 (Read_nil_panics client_in_session heap_with_nil_entry
                          (send_delivers (ReadResponse_ {| ua.ReadResults := [] |}))))
            1%positive request_with_nil_entry eq_refl _).
  cbn. set_solver.
Defined.

(** ** Dialling, closing and the reconnect loop *)

Lemma Dial_already_connected k env :
  sessionOnce_done k = true ->
  sechan (client k) <> None ->
  Dial k env = (k, Some already_connected).
Proof.
  intros Honce Hch. unfold Dial. rewrite Honce.
  destruct (sechan (client k)); [| done]. by destruct k.
Qed.

Lemma Dial_once k env : sessionOnce_done (Dial k env).1 = true.
Proof.
  unfold Dial. destruct (sessionOnce_done k) eqn:Honce; cbn;
    destruct (sechan (client k)); cbn; try done;
    destruct (uacp_Dial env); cbn; try done;
    by destruct (NewSecureChannel env).
Qed.

Lemma Dial_failed_Open_blocks_aux k env cn sc e :
  sechan (client k) = None ->
  uacp_Dial env = inl cn -> NewSecureChannel env = inl sc -> Open env = Some e ->
  exists k', Dial k env = (k', Some e) /\ sechan (client k') = Some sc /\
    sessionOnce_done k' = true.
Proof.
  intros Hch Hdial Hnew Hopen. unfold Dial.
  destruct (sessionOnce_done k) eqn:Honce; cbn; rewrite Hch, Hdial, Hnew, Hopen;
    (eexists; split; [reflexivity |]); cbn; by rewrite ?Honce.
Qed.

(** X19. A [Dial] that reaches the server and creates the channel but fails
    to open it returns the error of [Open] and leaves the channel pointer set;
    from then on every [Dial] fails with "secure channel already connected"
    without dialling, whatever the network would answer. *)
Theorem Dial_failed_Open_blocks (k : Connection) (env : Dial_env) (cn : uacp.Conn)
  (sc : uasc.SecureChannel) (e : error) :
  sechan (client k) = None ->
  uacp_Dial env = inl cn ->
  NewSecureChannel env = inl sc ->
  Open env = Some e ->
  (Dial k env).2 = Some e /\
  sechan (client (Dial k env).1) = Some sc /\
  conn (Dial k env).1 = Some cn /\
  forall env', Dial (Dial k env).1 env' = ((Dial k env).1, Some already_connected).
Proof.
  intros Hch Hdial Hnew Hopen.
  assert (Hres : (Dial k env).2 = Some e /\ sechan (client (Dial k env).1) = Some sc /\
                 conn (Dial k env).1 = Some cn).
  { unfold Dial. destruct (sessionOnce_done k); cbn; rewrite Hch, Hdial, Hnew; by cbn. }
  destruct Hres as (Herr & Hsc & Hcn). repeat split; try done.
  intros env'. apply Dial_already_connected; [apply Dial_once | by rewrite Hsc].
Qed.

Lemma Dial_failed_Open_blocks_witness :
  let k := NewConnection "opc.tcp://localhost:4840" (example_config true)
             example_sessionCfg in
  let k1 := (Dial k (dial Open_times_out)).1 in
  sechan (client k) = None /\
  (Dial k (dial Open_times_out)).2 = Some (other_error "timeout") /\
  Dial k1 (dial server_is_back) = (k1, Some already_connected).
Proof.
  split; [reflexivity |].
  destruct (Dial_failed_Open_blocks
              (NewConnection "opc.tcp://localhost:4840" (example_config true)
                 example_sessionCfg)
              (dial Open_times_out) {| uacp.ConnID := 2 |} {| uasc.ChannelID := 2 |}
              (other_error "timeout") eq_refl eq_refl eq_refl eq_refl)
    as (Herr & _ & _ & Hblocked).
  split; [exact Herr | exact (Hblocked (dial server_is_back))].
Defined.

Lemma dial_loop_blocked attempts : forall k r,
  sessionOnce_done k = true ->
  sechan (client k) <> None ->
  dial_loop k attempts = Some r -> r.2 = false.
Proof.
  induction attempts as [| a attempts IH]; intros k r Honce Hch; [done |].
  cbn [dial_loop]. rewrite Dial_already_connected by done.
  destruct (ctx_Done_first a); [by intros [= <-] |]. by apply IH.
Qed.

Lemma Dial_unreachable k a :
  sechan (client k) = None -> unreachable a ->
  exists k', Dial k (dial a) = (k', Some (match uacp_Dial (dial a) with
                                          | inr e => e
                                          | inl _ => already_connected
                                          end)) /\
    sechan (client k') = None /\ sessionOnce_done k' = true.
Proof.
  intros Hch [e He]. unfold Dial.
  destruct (sessionOnce_done k) eqn:Honce; cbn; rewrite Hch, He;
    (eexists; split; [reflexivity |]); cbn; by rewrite ?Hch, ?Honce.
Qed.

(** X20. The createSecureChannel step never gets past an attempt that
    fails in [Open]. If, after any number of attempts in which the server was
    not reached, one attempt reaches the server and then fails to open the
    channel, the step cannot end with restoreSession any more, however the
    server behaves afterwards: the loop goes on until the context is
    cancelled. *)
Theorem reconnect_stuck_after_failed_Open (k : Connection)
  (pre : list attempt) (a : attempt) (post : list attempt)
  (k' : Connection) (next : option reconnectAction) :
  Forall (fun x => unreachable x /\ ctx_Done_first x = false) pre ->
  Open_fails a ->
  createSecureChannel_case k (pre ++ a :: post) = Some (k', next) ->
  next = None.
Proof.
  intros Hpre (cn & sc & e & Hdial & Hnew & Hopen). unfold createSecureChannel_case.
  set (k0 := set_client _ k).
  assert (Hch0 : sechan (client k0) = None) by done.
  clearbody k0.
  assert (Hloop : forall r, dial_loop k0 (pre ++ a :: post) = Some r -> r.2 = false).
  { revert k0 Hch0.
    induction Hpre as [| x pre [Hx Hctx] _ IH]; intros k0 Hch0 r; cbn [app dial_loop].
    - destruct (Dial_failed_Open_blocks_aux k0 (dial a) cn sc e Hch0 Hdial Hnew Hopen)
        as (k1 & -> & Hsc & Honce).
      destruct (ctx_Done_first a); [by intros [= <-] |].
      apply dial_loop_blocked; [done | by rewrite Hsc].
    - destruct (Dial_unreachable k0 x Hch0 Hx) as (k1 & -> & Hch1 & _).
      rewrite Hctx. by apply IH. }
  destruct (dial_loop k0 (pre ++ a :: post)) as [[k1 b] |] eqn:Hdl; [| done].
  specialize (Hloop _ eq_refl). cbn in Hloop. subst b. by intros [= _ <-].
Qed.

Lemma reconnect_stuck_after_failed_Open_witness :
  Open_fails Open_times_out /\
  snd <$> createSecureChannel_case connection_in_session
            ([] ++ Open_times_out :: [server_is_back; cancelled])
  = Some None.
Proof.
  assert (H : Open_fails Open_times_out) by (by eexists _, _, _).
  split; [exact H |].
  destruct (createSecureChannel_case connection_in_session
              ([] ++ Open_times_out :: [server_is_back; cancelled]))
    as [[k' next] |] eqn:E.
  - cbn. do 2 f_equal.
    exact (reconnect_stuck_after_failed_Open connection_in_session [] Open_times_out
             [server_is_back; cancelled] k' next (List.Forall_nil _) H E).
  - vm_compute in E. discriminate E.
Defined.

(** X21. The createSecureChannel step ends with restoreSession at the first
    attempt in which dialling, creating and opening the channel all succeed,
    when the server was not reached in the attempts before and the context was
    not cancelled: the client then has the new connection and channel, is in
    state Reconnecting, and its registry is what it was. *)
Theorem reconnect_succeeds (k : Connection) (pre : list attempt) (a : attempt)
  (post : list attempt) (cn : uacp.Conn) (sc : uasc.SecureChannel) :
  Forall (fun x => unreachable x /\ ctx_Done_first x = false) pre ->
  uacp_Dial (dial a) = inl cn ->
  NewSecureChannel (dial a) = inl sc ->
  Open (dial a) = None ->
  exists k',
    createSecureChannel_case k (pre ++ a :: post) = Some (k', Some restoreSession) /\
    conn k' = Some cn /\ sechan (client k') = Some sc /\
    state (client k') = Reconnecting /\ subs (client k') = subs (client k) /\
    sechanErr_closed k' = sechanErr_closed k.
Proof.
  intros Hpre Hdial Hnew Hopen. unfold createSecureChannel_case.
  set (k0 := set_client _ k).
  assert (Hinv : sechan (client k0) = None /\ state (client k0) = Reconnecting /\
                 subs (client k0) = subs (client k) /\
                 sechanErr_closed k0 = sechanErr_closed k) by done.
  clearbody k0. revert k0 Hinv.
  induction Hpre as [| x pre [[e Hx] Hctx] _ IH]; intros k0 (Hch & Hst & Hsubs & Hcl);
    cbn [app dial_loop].
  - unfold Dial. destruct (sessionOnce_done k0); cbn; rewrite Hch, Hdial, Hnew, Hopen;
      eexists; (split; [reflexivity |]); by cbn.
  - assert (Hstep : exists k1, Dial k0 (dial x) = (k1, Some e) /\
        sechan (client k1) = None /\ state (client k1) = Reconnecting /\
        subs (client k1) = subs (client k) /\ sechanErr_closed k1 = sechanErr_closed k).
    { unfold Dial. destruct (sessionOnce_done k0); cbn; rewrite Hch, Hx;
        eexists; (split; [reflexivity |]); by cbn. }
    destruct Hstep as (k1 & -> & Hinv1). rewrite Hctx. by apply IH.
Qed.

Lemma reconnect_succeeds_witness :
  let refused :=
    {| dial := dial cancelled; ctx_Done_first := false |} in
  exists k',
    createSecureChannel_case connection_in_session
      ([refused; refused] ++ server_is_back :: [])
    = Some (k', Some restoreSession) /\
    conn k' = Some {| uacp.ConnID := 3 |} /\
    sechan (client k') = Some {| uasc.ChannelID := 3 |} /\
    state (client k') = Reconnecting /\
    subs (client k') = subs (client connection_in_session) /\
    sechanErr_closed k' = sechanErr_closed connection_in_session.
Proof.
  refine (reconnect_succeeds connection_in_session _ server_is_back []
            {| uacp.ConnID := 3 |} {| uasc.ChannelID := 3 |} _ eq_refl eq_refl eq_refl).
  repeat constructor; by eexists.
Defined.

(** X22. [Close] is not idempotent: after a [Close] that returned, a second
    [Close] panics, because [c.sechanErr] is closed again; and on a client
    that was never dialled [Close] panics at once, because no session pointer
    has been stored yet. *)
Theorem Close_twice_panics :
  (forall k o k' e sent o',
     Close k o = Returns (k', e, sent) -> Close k' o' = Panics) /\
  (forall endpoint cfg0 sessionCfg0 o,
     Close (NewConnection endpoint cfg0 sessionCfg0) o = Panics).
Proof.
  split; [| done].
  intros k o k' e sent o'. unfold Close.
  destruct (sessionOnce_done k) eqn:Honce; [| done]. cbn [negb].
  destruct (sechanErr_closed k); [done |]. intros [= <- _ _]. cbn. by rewrite ?Honce.
Qed.

Lemma Close_twice_panics_witness :
  exists k' sent,
    Close connection_in_session (send_fails (other_error "timeout"))
    = Returns (k', None, sent) /\
    Close k' (send_fails (other_error "timeout")) = Panics.
Proof.
  eexists _, _. split; [reflexivity |].
  eapply (proj1 Close_twice_panics connection_in_session
            (send_fails (other_error "timeout"))).
  reflexivity.
Defined.



(** ** Routing publish responses *)

Lemma notification_for_cases id data :
  let n := notification_for id data in
  notif_SubscriptionID n = id /\
  ((exists v, data = Some {| ext_Value := Some v |} /\ known_notification v /\
      notif_Value n = Some v /\ notif_Error n = None) \/
   ((forall v, data = Some {| ext_Value := Some v |} -> ~ known_notification v) /\
    notif_Value n = None /\ notif_Error n <> None)).
Proof.
  destruct data as [[[v |]] |]; cbn.
  - destruct v; cbn; (split; [done |]);
      try (left; eexists; by repeat split).
    right. split; [| done]. intros v [= <-]. cbn. tauto.
  - split; [done |]. right. split; [| done]. by intros v [=].
  - split; [done |]. right. split; [| done]. by intros v [=].
Qed.

(** X24. [notifySubscription] drops a response for a subscription that is
    not registered. For a registered one it calls [notify] on that
    subscription only: once, with an error, when the response has no
    notification message, and otherwise once per notification item, in order.
    An item holding a data change, an event list or a status change is passed
    on as the value, without error; a nil item, an item without value and
    an item of any other type give an error and no value. Every call carries
    the subscription id of the response. *)
Theorem notifySubscription_routes (c : Client) (response : PublishResponse) :
  let id := publish_SubscriptionID response in
  let calls := notifySubscription c response in
  (subs c !! id = None -> calls = []) /\
  (forall sub, subs c !! id = Some sub ->
     (publish_NotificationMessage response = None ->
      exists e, calls = [ (sub, {| notif_SubscriptionID := id; notif_Error := Some e;
                                   notif_Value := None |}) ]) /\
     (forall msg, publish_NotificationMessage response = Some msg ->
        length calls = length (NotificationData msg) /\
        forall (i : nat) data, NotificationData msg !! i = Some data ->
          exists n, calls !! i = Some (sub, n) /\
            notif_SubscriptionID n = id /\
            ((exists v, data = Some {| ext_Value := Some v |} /\ known_notification v /\
                notif_Value n = Some v /\ notif_Error n = None) \/
             ((forall v, data = Some {| ext_Value := Some v |} -> ~ known_notification v) /\
              notif_Value n = None /\ notif_Error n <> None)))).
Proof.
  cbn zeta. unfold notifySubscription. split; [by intros -> |].
  intros sub ->. split.
  - intros ->. by eexists.
  - intros msg ->. split; [by rewrite length_fmap |].
    intros i data Hi. exists (notification_for (publish_SubscriptionID response) data).
    split; [by rewrite list_lookup_fmap, Hi |]. apply notification_for_cases.
Qed.

Lemma notifySubscription_routes_witness :
  notifySubscription client_with_subscription sample_PublishResponse
  = [ (sample_subscription 7 5,
       {| notif_SubscriptionID := 7; notif_Error := None;
          notif_Value := Some (DataChangeNotification [Byte.x2a]) |});
      (sample_subscription 7 5,
       {| notif_SubscriptionID := 7;
          notif_Error := Some (errors_Errorf "missing NotificationData parameter");
          notif_Value := None |});
      (sample_subscription 7 5,
       {| notif_SubscriptionID := 7;
          notif_Error := Some (errors_Errorf "missing NotificationData parameter");
          notif_Value := None |});
      (sample_subscription 7 5,
       {| notif_SubscriptionID := 7;
          notif_Error :=
            Some (errors_Errorf "unknown NotificationData parameter: *ua.ServiceFault");
          notif_Value := None |}) ] /\
  length (notifySubscription client_with_subscription sample_PublishResponse) = 4%nat.
Proof.
  split; [reflexivity |].
  exact (proj1 (proj2 (proj2 (notifySubscription_routes client_with_subscription
                                sample_PublishResponse)
                         (sample_subscription 7 5) eq_refl) _ eq_refl)).
Defined.

(** X25. [notifySubscriptionsOfError] passes the error, without
    subscription id and without value, to every registered subscription,
    once each, when there is no response or the response names subscription
    0; when the response names another subscription, [notify] is called once,
    on what the registry holds under that id: the subscription, or the nil
    pointer when the id is not registered. *)
Theorem notifySubscriptionsOfError_targets (c : Client) (res : option PublishResponse)
  (err : option error) :
  let data := {| notif_SubscriptionID := 0; notif_Error := err; notif_Value := None |} in
  let calls := notifySubscriptionsOfError c res err in
  (res = None \/ (exists r, res = Some r /\ publish_SubscriptionID r = 0) ->
   length calls = size (subs c) /\
   (forall s n, (s, n) ∈ calls ->
      n = data /\ exists k sub, s = Some sub /\ subs c !! k = Some sub) /\
   (forall k sub, subs c !! k = Some sub -> (Some sub, data) ∈ calls)) /\
  (forall r, res = Some r -> publish_SubscriptionID r <> 0 ->
     calls = [ (subs c !! publish_SubscriptionID r, data) ]).
Proof.
  cbn zeta. unfold notifySubscriptionsOfError. split.
  - intros Hall.
    assert (Hcalls : match res with
      | Some r => if decide (publish_SubscriptionID r <> 0)
                  then [subs c !! publish_SubscriptionID r]
                  else Some <$> (map_to_list (subs c)).*2
      | None => Some <$> (map_to_list (subs c)).*2
      end = Some <$> (map_to_list (subs c)).*2).
    { destruct Hall as [-> | (r & -> & Hr)]; [done |]. by rewrite decide_False by lia. }
    rewrite Hcalls. split; [| split].
    + by rewrite !length_fmap, length_map_to_list.
    + intros s n Hin. apply list_elem_of_fmap in Hin as (s' & [= -> ->] & Hin).
      split; [done |].
      apply list_elem_of_fmap in Hin as (sub & -> & Hin).
      apply list_elem_of_fmap in Hin as ([k sub'] & -> & Hin).
      apply elem_of_map_to_list in Hin. by exists k, sub'.
    + intros k sub Hk. apply list_elem_of_fmap. exists (Some sub). split; [done |].
      apply list_elem_of_fmap. exists sub. split; [done |].
      apply list_elem_of_fmap. exists (k, sub). split; [done |].
      by apply elem_of_map_to_list.
  - intros r -> Hr. by rewrite decide_True.
Qed.

(** ** Numbering of republish requests, and the token on requests *)

Lemma republish_loop_requests sub script : forall sn e reqs sq,
  republish_loop sub sn script = Some (e, reqs, sq) ->
  reqs = republish_requests sub sn (length reqs) /\
  (length reqs <= length script)%nat.
Proof.
  induction script as [| st script IH]; intros sn e reqs sq; [done |].
  cbn [republish_loop]. destruct st as [| res [err |]].
  - intros [= <- <- <-]. cbn. split; [done | lia].
  - case_decide; intros [= <- <- <-]; cbn; (split; [done | lia]).
  - case_decide; [intros [= <- <- <-]; cbn; (split; [done | lia]) |].
    destruct (republish_loop sub (wrap32 (sn + 1)) script) as [[[e' reqs'] sq'] |] eqn:Hrec;
      [| done].
    intros [= <- <- <-]. apply IH in Hrec as [Hreqs Hlen].
    cbn [length republish_requests]. split; [| lia]. f_equal.
    rewrite Hreqs at 1. apply republish_requests_congr.
    unfold wrap32. apply Zmod_mod.
Qed.

(** X26. In every run of [sendRepublishRequests] that returns, whatever the
    server answers, the requests issued are all for the subscription and are
    numbered consecutively from the last sequence number plus one, in uint32
    arithmetic: request [i] carries [(last + i + 1) mod 2^32], so the number
    wraps to 0 after 4294967295 and never leaves the uint32 range. *)
Theorem sendRepublishRequests_numbering (sub : Subscription)
  (script : list republish_step) (err : option error)
  (reqs : list ua.RepublishRequest) (sub' : Subscription) :
  sendRepublishRequests sub script = Some (err, reqs, sub') ->
  (length reqs <= length script)%nat /\
  forall (i : nat) req, reqs !! i = Some req ->
    ua.SubscriptionID req = SubscriptionID sub /\
    ua.RetransmitSequenceNumber req
    = (lastSequenceNumber sub + Z.of_nat i + 1) mod 2 ^ 32 /\
    0 <= ua.RetransmitSequenceNumber req < 2 ^ 32.
Proof.
  unfold sendRepublishRequests.
  destruct (republish_loop sub (lastSequenceNumber sub) script) as [[[e rs] sq] |] eqn:Hloop;
    [| done].
  intros [= <- <- <-]. apply republish_loop_requests in Hloop as [Hreqs Hlen].
  split; [done |]. intros i req Hi.
  assert (Hlt : (i < length rs)%nat) by (by eapply lookup_lt_Some).
  rewrite Hreqs, republish_requests_lookup in Hi by done. injection Hi as <-. cbn.
  split; [done |]. split; [done |]. unfold wrap32. by apply Z.mod_pos_bound.
Qed.

Lemma sendRepublishRequests_numbering_witness :
  let sub := sample_subscription 7 4294967295 in
  exists sub',
    sendRepublishRequests sub [message_recovered; no_more_messages]
    = Some (None,
            [ {| ua.SubscriptionID := 7; ua.RetransmitSequenceNumber := 0 |};
              {| ua.SubscriptionID := 7; ua.RetransmitSequenceNumber := 1 |} ],
            sub') /\
    forall (i : nat) req,
      [ {| ua.SubscriptionID := 7; ua.RetransmitSequenceNumber := 0 |};
        {| ua.SubscriptionID := 7; ua.RetransmitSequenceNumber := 1 |} ] !! i = Some req ->
      ua.SubscriptionID req = 7 /\
      ua.RetransmitSequenceNumber req = (4294967295 + Z.of_nat i + 1) mod 2 ^ 32 /\
      0 <= ua.RetransmitSequenceNumber req < 2 ^ 32.
Proof.
  eexists. split; [vm_compute; reflexivity |].
  eapply (sendRepublishRequests_numbering (sample_subscription 7 4294967295)
            [message_recovered; no_more_messages]).
  vm_compute. reflexivity.
Defined.

(** X27. Every request that [Call], [Read], [Subscribe], [CloseSession] and
    [transferSubscriptions] hand to the secure channel carries the
    authentication token of the client's active session (no token when there
    is no session) and the configured request timeout, and each of them hands
    over at most one request. *)
Theorem requests_carry_session_token (c : Client) (o : send_outcome) :
  (forall req r, Call c req o = Returns r ->
     Forall (sent_in_session c) (handed r) /\ (length (handed r) <= 1)%nat) /\
  (forall h req r h', Read c h req o = Returns (r, h') ->
     Forall (sent_in_session c) (handed r) /\ (length (handed r) <= 1)%nat) /\
  (forall params notifyCh r, Subscribe c params notifyCh o = Returns r ->
     Forall (sent_in_session c) (handed r) /\ (length (handed r) <= 1)%nat) /\
  (Forall (sent_in_session c) (handed (CloseSession c o)) /\
   (length (handed (CloseSession c o)) <= 1)%nat) /\
  (forall ids,
     Forall (sent_in_session c) (transferSubscriptions c ids o).2 /\
     (length (transferSubscriptions c ids o).2 <= 1)%nat).
Proof.
  assert (Hsend : forall (S : Type) req (h : Response -> S -> S * option error) locals,
    Forall (sent_in_session c) (Send c req o h locals).2 /\
    (length (Send c req o h locals).2 <= 1)%nat).
  { intros S req h locals. unfold Send, sendWithTimeout.
    destruct (sechan c); cbn; [| by split; [constructor | lia]].
    split; [| lia]. by repeat constructor. }
  split; [| split; [| split; [| split]]].
  - intros req r. unfold Call.
    pose proof (Hsend _ (CallRequest_ {| ua.MethodsToCall := [req] |})
                  (assign_response (T := ua.CallResponse)) None) as H.
    destruct (Send c _ o assign_response None) as [[res [e |]] sent]; cbn in H.
    { by intros [= <-]. }
    destruct res as [res |]; [| done]. case_decide; [by intros [= <-] |].
    destruct (ua.Results res !! 0%nat); [| done]. by intros [= <-].
  - intros h req r h'. unfold Read.
    destruct (heap.load_ReadRequest h req) as [rr |]; [| done].
    destruct (clone_ReadValueIDs h (heap.NodesToRead rr)) as [[h1 rvs] |]; [| done].
    destruct (heap.alloc h1 _) as [l h2].
    pose proof (Hsend _ (ReadRequest_ l) (assign_response (T := ua.ReadResponse)) None)
      as H.
    destruct (Send c _ o assign_response None) as [[res err] sent]; cbn in H.
    by intros [= <- <-].
  - intros params notifyCh r. unfold Subscribe.
    match goal with
    | |- context [Send c ?rq o assign_response None] =>
        pose proof (Hsend _ rq (assign_response (T := ua.CreateSubscriptionResponse)) None)
          as H
    end.
    destruct (Send c _ o assign_response None) as [[res [e |]] sent]; cbn in H.
    { by intros [= <-]. }
    destruct res as [res |]; [| done]. case_decide; [by intros [= <-] |].
    destruct (bool_decide _ || bool_decide _); by intros [= <-].
  - unfold CloseSession, closeSession, Session_.
    destruct (session c) as [s |] eqn:Hs; [| cbn; by split; [constructor | lia]].
    pose proof (Hsend _ (CloseSessionRequest_ {| ua.DeleteSubscriptions := true |})
                  (assign_response (T := ua.CloseSessionResponse)) None) as H.
    destruct (Send c _ o assign_response None) as [[res [e |]] sent]; cbn in H; by cbn.
  - intros ids. unfold transferSubscriptions. apply Hsend.
Qed.
